(** * Reward and economy rules of the Halloween bot (src/index.js)

    A shallow embedding of the command handlers of [src/index.js]:
    the cooldown gate, the random outcome of a reward action, the shop
    catalog, the leaderboard text and the profile store they read and
    write.  Definitions come first, the properties follow. *)

From Stdlib Require Import ZArith Lia List String Ascii DecimalString Sorted.
From stdpp Require Import gmap strings list.

Local Open Scope string_scope.
Local Open Scope Z_scope.

(** ** JavaScript values used by the handlers

    Balances and timestamps (milliseconds since the epoch) are integral
    Numbers of magnitude below [2^53]; on these [+], [-], [%] and the
    comparisons are exact, and they are written in [Z].  Products with
    a draw of [Math.random()] and quotients are rounded; they are
    written with the binary64 operations of [Float64] below. *)

Module JS.

(** Template-literal rendering [`${n}`] of an integral Number. *)
Definition string_of_Z (n : Z) : string :=
  NilZero.string_of_int (Z.to_int n).

(** [x || d] on a Number: [0] is falsy. *)
Definition or_num (x d : Z) : Z := if x =? 0 then d else x.

(** [x || d] on a string: the empty string is falsy. *)
Definition or_str (x d : string) : string :=
  match x with EmptyString => d | _ => x end.

(** [x || d] on a property that may be absent ([undefined]) or empty. *)
Definition or_opt_str (x : option string) (d : string) : string :=
  match x with Some s => or_str s d | None => d end.

(** [a % b]: the remainder takes the sign of the dividend. *)
Definition rem (a b : Z) : Z := Z.rem a b.

(** [parts.join(sep)]. *)
Fixpoint join (sep : string) (parts : list string) : string :=
  match parts with
  | [] => ""
  | [p] => p
  | p :: rest => p +:+ sep +:+ join sep rest
  end.

Definition nl : string := String "010"%char EmptyString.

End JS.

(** ** binary64 Numbers

    [Math.random()] yields a binary64 Number in [[0, 1)].  A finite
    non-negative binary64 value is an integral multiple of [2^-1074];
    it is written here as that integer numerator.  A value with
    numerator [x >= 2^52] carries 53 significant bits, so its unit in
    the last place is [2^(log2 x - 52)]; below that every integer
    numerator is a (subnormal or small normal) Number.  The values met
    here stay below [2^53], far from overflow. *)

Module Float64.

Definition one : Z := 2 ^ 1074.

Definition ulp (x : Z) : Z := 2 ^ Z.max 0 (Z.log2 x - 52).

Definition is_double (x : Z) : bool :=
  (0 <=? x) && (x mod ulp x =? 0).

(** A result of [Math.random()]: a Number in [[0, 1)]. *)
Definition is_draw (x : Z) : bool := is_double x && (x <? one).

(** roundTiesToEven of an exact non-negative result to binary64. *)
Definition round (x : Z) : Z :=
  let g := ulp x in
  let q := x / g in
  let r := x mod g in
  if 2 * r <? g then q * g
  else if g <? 2 * r then (q + 1) * g
  else if Z.even q then q * g
  else (q + 1) * g.

(** [x * k] for a Number [x] and a small integer constant [k]. *)
Definition mul_int (x k : Z) : Z := round (x * k).

(** [Math.floor(x)] as an integer. *)
Definition floor (x : Z) : Z := x / one.

(** roundTiesToEven of the exact non-negative quotient [n / d], both in
    units of [2^-1074]. *)
Definition round_ratio (n d : Z) : Z :=
  let g := ulp (n / d) in
  let q := n / (d * g) in
  let r := n mod (d * g) in
  if 2 * r <? d * g then q * g
  else if d * g <? 2 * r then (q + 1) * g
  else if Z.even q then q * g
  else (q + 1) * g.

(** [a / b] for integral Numbers [a >= 0] and [b > 0]. *)
Definition div_int (a b : Z) : Z := round_ratio (a * one) b.

(** [Math.ceil(x)] as an integer. *)
Definition ceil (x : Z) : Z := - ((- x) / one).

(** [x < y] on Numbers. *)
Definition ltb (x y : Z) : bool := x <? y.

(** The literals [0.10], [0.75] and [0.95]: the Numbers
    [0x1.999999999999ap-4], [0x1.8p-1] and [0x1.e666666666666p-1]. *)
Definition lit_0_10 : Z := 7205759403792794 * 2 ^ 1018.
Definition lit_0_75 : Z := 3 * 2 ^ 1072.
Definition lit_0_95 : Z := 8556839292003942 * 2 ^ 1021.

(** [Math.floor(x * k)]. *)
Definition floor_mul (x k : Z) : Z := floor (mul_int x k).

End Float64.

(** ** The random source

    Successive calls of [Math.random()] consume an infinite sequence of
    draws; a computation that draws is a function of that sequence. *)

Module Random.

Definition Rng : Type := nat -> Z.

Definition Rand (A : Type) : Type := Rng -> A * Rng.

Definition ret {A} (a : A) : Rand A := fun r => (a, r).

Definition bind {A B} (m : Rand A) (f : A -> Rand B) : Rand B :=
  fun r => let (a, r') := m r in f a r'.

(** [Math.random()]. *)
Definition random : Rand Z := fun r => (r 0%nat, fun n => r (S n)).

(** Every draw of the sequence is a Number in [[0, 1)]. *)
Definition well_formed (r : Rng) : Prop :=
  forall n, Float64.is_draw (r n) = true.

(** The sequence that starts with the draws of [l] and continues
    with zeros. *)
Definition of_list (l : list Z) : Rng := fun n => nth n l 0.

End Random.

Declare Scope rand_scope.
Delimit Scope rand_scope with rand.
Bind Scope rand_scope with Random.Rand.

Notation "'let*' x := m 'in' k" := (Random.bind m (fun x => k))
  (at level 10, x name, m at level 100, k at level 200) : rand_scope.

(** ** Cooldown gate (handleTrickOrTreat, lines 195-209) *)

Definition COOLDOWN_TIME : Z := 2 * 60 * 60 * 1000.

(** The condition of line 200: the action is blocked. *)
Definition onCooldown (lastUsed now : Z) : bool :=
  lastUsed + COOLDOWN_TIME >? now.

Definition remainingTime (lastUsed now : Z) : Z :=
  lastUsed + COOLDOWN_TIME - now.

Definition remainingHours (remaining : Z) : Z :=
  Float64.floor (Float64.div_int remaining (1000 * 60 * 60)).

Definition remainingMinutes (remaining : Z) : Z :=
  Float64.ceil (Float64.div_int (JS.rem remaining (1000 * 60 * 60)) (1000 * 60)).

(** The [**${remainingHours}h ${remainingMinutes}m**] part of the reply. *)
Definition waitText (remaining : Z) : string :=
  JS.string_of_Z (remainingHours remaining) +:+ "h " +:+
  JS.string_of_Z (remainingMinutes remaining) +:+ "m".

Definition cooldownContent (remaining : Z) : string :=
  "‚è≥ You must wait **" +:+ waitText remaining +:+
  "** before trick-or-treating again. The spooks are resting!".

(** ** Reward engine (handleTrickOrTreat, lines 211-252) *)

Record Outcome := {
  candyChange : Z;
  outTitle : string;
  outColor : string;
  outMessage : option string   (* the value assigned to [profile.message] *)
}.

(** The array [tricks] of lines 228-232, built for a given [candyChange]. *)
Definition tricks (candyChange : Z) : list string :=
  [ "A zombie swapped your bag for one full of leaves! You lost **" +:+
      JS.string_of_Z (Z.abs candyChange) +:+ "** candy.";
    "You stepped on a cursed pumpkin! Your pants are wet, and you dropped **" +:+
      JS.string_of_Z (Z.abs candyChange) +:+ "** candy.";
    "The door was a giant spider web! You were sticky for 5 minutes and lost **" +:+
      JS.string_of_Z (Z.abs candyChange) +:+ "** candy." ].

(** [arr[i]] for an integral index: [undefined] out of range. *)
Definition index {A} (arr : list A) (i : Z) : option A :=
  if i <? 0 then None else nth_error arr (Z.to_nat i).

(** Lines 218-223: the deduction of a trick for the draw [m]. *)
Definition trickChange (currentCandy m : Z) : Z :=
  let candyChange := - Float64.floor_mul m 6 - 1 in
  if currentCandy + candyChange <? 0 then - currentCandy else candyChange.

Definition computeOutcome (currentCandy : Z) : Random.Rand Outcome :=
  (let* p1 := Random.random in
   let isTrick := Float64.ltb p1 Float64.lit_0_10 in
   if isTrick then
     let* m := Random.random in
     let candyChange := trickChange currentCandy m in
     let* i := Random.random in
     Random.ret
       {| candyChange := candyChange;
          outTitle := "A Nasty Trick!";
          outColor := "#b22222";
          outMessage :=
            index (tricks candyChange)
              (Float64.floor_mul i (Z.of_nat (length (tricks candyChange)))) |}
   else
     let* tier := Random.random in
     if Float64.ltb tier Float64.lit_0_75 then
       let* m := Random.random in
       let candyChange := Float64.floor_mul m 5 + 1 in
       Random.ret
         {| candyChange := candyChange;
            outTitle := "A Sweet Treat!";
            outColor := "#ff6700";
            outMessage :=
              Some ("You got " +:+ JS.string_of_Z candyChange +:+
                    " pieces of candy!") |}
     else if Float64.ltb tier Float64.lit_0_95 then
       let* m := Random.random in
       let candyChange := Float64.floor_mul m 10 + 6 in
       Random.ret
         {| candyChange := candyChange;
            outTitle := "Bonus Haul!";
            outColor := "#ffd700";
            outMessage :=
              Some ("You got " +:+ JS.string_of_Z candyChange +:+
                    " pieces of candy!") |}
     else
       let* m := Random.random in
       let candyChange := Float64.floor_mul m 20 + 16 in
       Random.ret
         {| candyChange := candyChange;
            outTitle := "Jackpot! The Motherlode!";
            outColor := "#A020F0";
            outMessage :=
              Some ("You got " +:+ JS.string_of_Z candyChange +:+
                    " pieces of candy!") |})%rand.

(** ** Data model *)

(** A profile document.  [username] is written by the first reward
    action and [message] is a property that the reward action sets on
    the object it read; both may be absent. *)
Module Profile.
Record t := mk {
  candy : Z;
  title : string;
  inventory : list string;
  lastUsed : Z;
  username : option string;
  message : option string
}.
End Profile.

(** The literal of lines 97-102 (and of line 257). *)
Definition defaultProfile : Profile.t :=
  {| Profile.candy := 0;
     Profile.title := "New Trick-or-Treater";
     Profile.inventory := [];
     Profile.lastUsed := 0;
     Profile.username := None;
     Profile.message := None |}.

(** The literal of line 106. *)
Definition errorProfile : Profile.t :=
  {| Profile.candy := 0;
     Profile.title := "Error Status";
     Profile.inventory := [];
     Profile.lastUsed := 0;
     Profile.username := None;
     Profile.message := None |}.

Module ShopItem.
Record t := mk {
  id : string;
  name : string;
  cost : Z;
  title : string;
  color : string
}.
End ShopItem.

Definition SHOP_ITEMS : list ShopItem.t :=
  [ ShopItem.mk "hat" "Witch's Hat" 50 "The Bewitched" "#8b008b";
    ShopItem.mk "mask" "Jason Mask" 150 "The Maniac" "#b22222";
    ShopItem.mk "ghost" "Ghostly Shroud" 300 "A Vile Specter" "#cccccc" ].

(** The invoking user, as the gateway supplies it. *)
Module User.
Record t := mk {
  id : string;
  username : string;
  displayAvatarURL : string
}.
End User.

Module Embed.
Record field := mkField {
  name : string;
  value : string;
  inline : bool
}.
Record t := mk {
  color : string;
  title : string;
  description : option string;
  thumbnail : option string;
  fields : list field;
  footer : string
}.
End Embed.

(** The argument of [interaction.editReply]. *)
Inductive Reply :=
| Content (content : string)
| Embeds (embed : Embed.t).

(** ** The profile store and the command monad

    The store holds one profile document per user id (the document
    path of lines 88 and 161 is a function of the user id).  A handler
    is a function of the store that returns a value or throws, and the
    store it leaves. *)

Module Cmd.

Inductive error := StoreError | TypeError.

Inductive result (A : Type) :=
| Done (a : A)
| Throw (e : error).
Arguments Done {A} a.
Arguments Throw {A} e.

Definition M (A : Type) : Type :=
  gmap string Profile.t -> result A * gmap string Profile.t.

Definition ret {A} (a : A) : M A := fun st => (Done a, st).

Definition throw {A} (e : error) : M A := fun st => (Throw e, st).

Definition bind {A B} (m : M A) (f : A -> M B) : M B :=
  fun st =>
    match m st with
    | (Done a, st') => f a st'
    | (Throw e, st') => (Throw e, st')
    end.

(** [try { m } catch (e) { h e }]. *)
Definition catch {A} (m : M A) (h : error -> M A) : M A :=
  fun st =>
    match m st with
    | (Done a, st') => (Done a, st')
    | (Throw e, st') => h e st'
    end.

(** [getDoc(docRef)]: the snapshot of the user's document, or a
    rejection when the store cannot be read. *)
Definition getDoc (fails : bool) (userId : string)
  : M (option Profile.t) :=
  fun st => if fails then (Throw StoreError, st) else (Done (st !! userId), st).

(** [runTransaction(db, ...)] of lines 255-265: the callback reads
    the snapshot, computes the document and sets it; the read and the
    write are one atomic step.  A rejected transaction writes nothing. *)
Definition runTransaction (fails : bool) (userId : string)
    (update : option Profile.t -> Profile.t) : M Profile.t :=
  fun st =>
    if fails then (Throw StoreError, st)
    else let currentData := update (st !! userId) in
         (Done currentData, <[userId := currentData]> st).

(** [items.map(f)] for a callback that may throw. *)
Fixpoint mapM {A B} (f : A -> M B) (items : list A) : M (list B) :=
  match items with
  | [] => ret []
  | x :: rest =>
      bind (f x) (fun y => bind (mapM f rest) (fun ys => ret (y :: ys)))
  end.

End Cmd.

Declare Scope cmd_scope.
Delimit Scope cmd_scope with cmd.
Bind Scope cmd_scope with Cmd.M.

Notation "'let*' x := m 'in' k" := (Cmd.bind m (fun x => k))
  (at level 10, x name, m at level 100, k at level 200) : cmd_scope.

(** What the environment does during one command: the clock, the
    random source, whether the profile read and the transaction are
    rejected, and what the leaderboard query delivers ([None] when
    [getDocs] rejects). *)
Record Env := {
  now : Z;
  rng : Random.Rng;
  readFails : bool;
  commitFails : bool;
  topQuery : option (list Profile.t)
}.

(** ** getUserProfile (lines 86-108) *)

Definition getUserProfile (fails : bool) (userId : string)
  : Cmd.M Profile.t :=
  Cmd.catch
    (let* docSnap := Cmd.getDoc fails userId in
     match docSnap with
     | Some data => Cmd.ret data
     | None => Cmd.ret defaultProfile
     end)%cmd
    (fun _ => Cmd.ret errorProfile).

(** ** handleTrickOrTreat (lines 194-278)

    The handler suspends twice: at the profile read and at the
    transaction.  [trickOrTreatDraw] is the part up to the transaction,
    [trickOrTreatCommit] the transaction and the reply. *)

Inductive Drawn :=
| Blocked (reply : Reply)
| Ready (profile : Profile.t) (o : Outcome).

Definition trickOrTreatDraw (env : Env) (user : User.t) : Cmd.M Drawn :=
  (let* profile := getUserProfile (readFails env) (User.id user) in
   let lastUsed := JS.or_num (Profile.lastUsed profile) 0 in
   if onCooldown lastUsed (now env) then
     Cmd.ret (Blocked (Content (cooldownContent (remainingTime lastUsed (now env)))))
   else
     let o := fst (computeOutcome (Profile.candy profile) (rng env)) in
     let profile :=
       {| Profile.candy := Profile.candy profile;
          Profile.title := Profile.title profile;
          Profile.inventory := Profile.inventory profile;
          Profile.lastUsed := Profile.lastUsed profile;
          Profile.username := Profile.username profile;
          Profile.message := outMessage o |} in
     Cmd.ret (Ready profile o))%cmd.

(** The callback of the transaction (lines 256-264). *)
Definition commitUpdate (env : Env) (user : User.t) (candyChange : Z)
    (docSnap : option Profile.t) : Profile.t :=
  let currentData :=
    match docSnap with Some data => data | None => defaultProfile end in
  {| Profile.candy := JS.or_num (Profile.candy currentData) 0 + candyChange;
     Profile.title := Profile.title currentData;
     Profile.inventory := Profile.inventory currentData;
     Profile.lastUsed := now env;
     Profile.username := Some (User.username user);
     Profile.message := Profile.message currentData |}.

Definition trickOrTreatCommit (env : Env) (user : User.t) (o : Outcome)
  : Cmd.M Reply :=
  (let* profile :=
     Cmd.runTransaction (commitFails env) (User.id user)
       (commitUpdate env user (candyChange o)) in
   Cmd.ret (Embeds
     {| Embed.color := outColor o;
        Embed.title := "üéÉ " +:+ outTitle o;
        Embed.description := Profile.message profile;
        Embed.thumbnail := None;
        Embed.fields :=
          [ Embed.mkField "Change"
              ((if candyChange o >? 0 then "+" else "") +:+
               JS.string_of_Z (candyChange o) +:+ " Candy") true;
            Embed.mkField "Total Candy"
              (JS.string_of_Z (Profile.candy profile)) true ];
        Embed.footer := "Next attempt available in 2 hours." |}))%cmd.

(** What the handler does once [trickOrTreatDraw] has returned. *)
Definition trickOrTreatResume (env : Env) (user : User.t) (d : Drawn)
  : Cmd.M Reply :=
  match d with
  | Blocked reply => Cmd.ret reply
  | Ready _ o => trickOrTreatCommit env user o
  end.

Definition handleTrickOrTreat (env : Env) (user : User.t) : Cmd.M Reply :=
  (let* d := trickOrTreatDraw env user in
   trickOrTreatResume env user d)%cmd.

(** Two [trickortreat] commands in flight at once: the host runs the
    second up to its transaction while the first waits for its own, so
    both read the store before either commits. *)
Definition twoInFlight (env1 env2 : Env) (user1 user2 : User.t)
  : Cmd.M (Reply * Reply) :=
  (let* d1 := trickOrTreatDraw env1 user1 in
   let* d2 := trickOrTreatDraw env2 user2 in
   let* reply1 := trickOrTreatResume env1 user1 d1 in
   let* reply2 := trickOrTreatResume env2 user2 d2 in
   Cmd.ret (reply1, reply2))%cmd.

(** ** handleInventory (lines 283-299) *)

(** [SHOP_ITEMS.find(i => i.id === id)]. *)
Definition findItem (id : string) : option ShopItem.t :=
  List.find (fun i => String.eqb (ShopItem.id i) id) SHOP_ITEMS.

(** [SHOP_ITEMS.find(i => i.id === id).name]: reading [name] of
    [undefined] throws. *)
Definition itemName (id : string) : Cmd.M string :=
  match findItem id with
  | Some i => Cmd.ret (ShopItem.name i)
  | None => Cmd.throw Cmd.TypeError
  end.

Definition itemsOwned (profile : Profile.t) : Cmd.M string :=
  if (0 <? Z.of_nat (length (Profile.inventory profile))) then
    (let* names := Cmd.mapM itemName (Profile.inventory profile) in
     Cmd.ret (JS.join ", " names))%cmd
  else Cmd.ret "None".

Definition handleInventory (env : Env) (user : User.t) : Cmd.M Reply :=
  (let* profile := getUserProfile (readFails env) (User.id user) in
   let userTitle := JS.or_str (Profile.title profile) "New Trick-or-Treater" in
   let* owned := itemsOwned profile in
   Cmd.ret (Embeds
     {| Embed.color := "#A020F0";
        Embed.title := "üëª " +:+ User.username user +:+ "'s Inventory";
        Embed.description := Some ("**Current Title:** `" +:+ userTitle +:+ "`");
        Embed.thumbnail := Some (User.displayAvatarURL user);
        Embed.fields :=
          [ Embed.mkField "Candy Count"
              (JS.string_of_Z (Profile.candy profile) +:+ " üç¨") true;
            Embed.mkField "Items Owned" owned false ];
        Embed.footer := "Spend your candy in the /shop!" |}))%cmd.

(** ** handleShop (lines 304-329) *)

(** [profile.inventory.includes(item.id)]. *)
Definition owns (profile : Profile.t) (item : ShopItem.t) : bool :=
  existsb (String.eqb (ShopItem.id item)) (Profile.inventory profile).

(** The status of line 314. *)
Definition statusText (profile : Profile.t) (item : ShopItem.t) : string :=
  if owns profile item then "‚úÖ OWNED"
  else if Profile.candy profile >=? ShopItem.cost item then "üü¢ BUYABLE"
  else "üî¥ TOO POOR".

(** What one iteration of the [forEach] appends. *)
Definition shopEntry (profile : Profile.t) (item : ShopItem.t) : string :=
  "**" +:+ ShopItem.name item +:+ "**" +:+ JS.nl +:+
  "**Cost:** " +:+ JS.string_of_Z (ShopItem.cost item) +:+ " üç¨" +:+ JS.nl +:+
  "**Title:** `" +:+ ShopItem.title item +:+ "`" +:+ JS.nl +:+
  "**Status:** " +:+ statusText profile item +:+ JS.nl +:+ JS.nl.

Definition shopDescription (profile : Profile.t) : string :=
  fold_left (fun acc item => acc +:+ shopEntry profile item) SHOP_ITEMS
    ("You have **" +:+ JS.string_of_Z (Profile.candy profile) +:+
     " üç¨** to spend." +:+ JS.nl +:+ JS.nl).

Definition handleShop (env : Env) (user : User.t) : Cmd.M Reply :=
  (let* profile := getUserProfile (readFails env) (User.id user) in
   Cmd.ret (Embeds
     {| Embed.color := "#8b008b";
        Embed.title := "üõçÔ∏è Spooky Title Shop";
        Embed.description := Some (shopDescription profile);
        Embed.thumbnail := None;
        Embed.fields := [];
        Embed.footer := "To purchase, use /shop <item ID> (e.g., /shop hat)" |}))%cmd.

(** ** handleTopSpook (lines 334-411) *)

(** [getDocs(collectionGroupQuery)]: the documents the query delivers,
    ordered by [candy] descending and limited to 10 by the store. *)
Definition getDocs (env : Env) : Cmd.M (list Profile.t) :=
  match topQuery env with
  | Some docs => Cmd.ret docs
  | None => Cmd.throw Cmd.StoreError
  end.

(** The line of line 394 for the current value of [rank]. *)
Definition leaderboardLine (rank : Z) (data : Profile.t) : string :=
  "**#" +:+ JS.string_of_Z rank +:+ "** " +:+
  JS.or_opt_str (Profile.username data) "Mysterious User" +:+
  " (`" +:+ JS.or_str (Profile.title data) "Novice" +:+ "`): **" +:+
  JS.string_of_Z (Profile.candy data) +:+ "** üç¨".

(** [snapshot.docs.map(doc => ... rank++ ...)]: the callback reads the
    counter and increments it. *)
Fixpoint leaderboardLines (rank : Z) (docs : list Profile.t) : list string :=
  match docs with
  | [] => []
  | data :: rest => leaderboardLine rank data :: leaderboardLines (rank + 1) rest
  end.

Definition emptyText : string :=
  "The spooky competition is empty! Be the first to use /trickortreat!".

Definition unavailableText : string :=
  "A Collection Group Index is likely missing in Firestore. You must create one for **`candy_data`** to see the leaderboard. Until then, go trick-or-treating!".

Definition leaderboardText (env : Env) : Cmd.M string :=
  Cmd.catch
    (let* docs := getDocs env in
     match docs with
     | [] => Cmd.ret emptyText
     | _ => Cmd.ret (JS.join JS.nl (leaderboardLines 1 docs))
     end)%cmd
    (fun _ => Cmd.ret unavailableText).

Definition handleTopSpook (env : Env) : Cmd.M Reply :=
  (let* text := leaderboardText env in
   Cmd.ret (Embeds
     {| Embed.color := "#000000";
        Embed.title := "üëë Global Spooky Leaderboard üëë";
        Embed.description := Some text;
        Embed.thumbnail := None;
        Embed.fields := [];
        Embed.footer := "The top 10 richest trick-or-treaters across all servers." |}))%cmd.

(** ** The dispatcher (interactionCreate, lines 153-186) *)

Definition ghostlyError : string :=
  "üíÄ A ghostly error occurred while processing your command. Check console logs.".

(** The [switch] of lines 165-178: no case, no handler. *)
Definition handlerOf (env : Env) (commandName : string) (user : User.t)
  : option (Cmd.M Reply) :=
  if String.eqb commandName "trickortreat" then Some (handleTrickOrTreat env user)
  else if String.eqb commandName "inventory" then Some (handleInventory env user)
  else if String.eqb commandName "shop" then Some (handleShop env user)
  else if String.eqb commandName "topspook" then Some (handleTopSpook env)
  else None.

(** The reply the user sees, if any, and the store after the command. *)
Definition interactionCreate (env : Env) (commandName : string) (user : User.t)
    (st : gmap string Profile.t) : option Reply * gmap string Profile.t :=
  match handlerOf env commandName user with
  | None => (None, st)
  | Some handler =>
      match handler st with
      | (Cmd.Done reply, st') => (Some reply, st')
      | (Cmd.Throw _, st') => (Some (Content ghostlyError), st')
      end
  end.
(** ** Inputs used in the examples *)

(** A Number on the grid of [2^-10] in the unit interval whose
    [k]-fold lies in [[j, j+1)]. *)
Definition gridDraw (k j : Z) : Z := ((j * 1024 + k - 1) / k) * 2 ^ 1064.

Definition kat : User.t := User.mk "1001" "kat" "https://cdn.example/kat.png".

(** A clock reading in November 2023 and a source whose first draw is
    [0] (a trick), whose second is [3/4] and whose third is [0]. *)
Definition trickEnv : Env :=
  {| now := 1700000000000;
     rng := Random.of_list [0; 3 * 2 ^ 1072; 0];
     readFails := false;
     commitFails := false;
     topQuery := Some [] |}.

(** The text of each line of [tricks] up to the reported amount. *)
Definition trickLines : list string :=
  [ "A zombie swapped your bag for one full of leaves! You lost **";
    "You stepped on a cursed pumpkin! Your pants are wet, and you dropped **";
    "The door was a giant spider web! You were sticky for 5 minutes and lost **" ].

(** A source whose first draw is [0.10] (a treat) and whose second and
    third draws are [p2] and [m]. *)
Definition treatRng (p2 m : Z) : Random.Rng :=
  Random.of_list [Float64.lit_0_10; p2; m].

(** ** The shop contract in the words of the specification

    [affordability(profile, item)]: Owned if [item.id] is in
    [profile.inventory]; else Buyable if [profile.candy >= item.cost];
    else TooExpensive. *)

Inductive Affordability := Owned | Buyable | TooExpensive.

Definition affordability (profile : Profile.t) (item : ShopItem.t)
  : Affordability :=
  if decide (ShopItem.id item ∈ Profile.inventory profile) then Owned
  else if decide (ShopItem.cost item <= Profile.candy profile) then Buyable
  else TooExpensive.

(** The label the shop shows for each status. *)
Definition statusLabel (a : Affordability) : string :=
  match a with
  | Owned => "‚úÖ OWNED"
  | Buyable => "üü¢ BUYABLE"
  | TooExpensive => "üî¥ TOO POOR"
  end.

(** A handler that leaves every store as it found it. *)
Definition readOnly {A} (m : Cmd.M A) : Prop :=
  forall st, snd (m st) = st.

(** The reply a command gives when the profile read succeeds and finds
    no record of the user. *)
Definition replyToNewcomer (env : Env) (commandName : string) (user : User.t)
    (st : gmap string Profile.t) : option Reply :=
  fst (interactionCreate
         {| now := now env; rng := rng env; readFails := false;
            commitFails := commitFails env; topQuery := topQuery env |}
         commandName user (delete (User.id user) st)).

(** The commands that start by reading the invoking user's profile. *)
Definition profileCommands : list string :=
  ["trickortreat"; "inventory"; "shop"].

(** "Every dependent command reports a failed profile read instead of
    going on as if the read had found the default profile." *)
Definition reportsReadFailure : Prop :=
  forall commandName env user st,
    In commandName profileCommands ->
    readFails env = true ->
    fst (interactionCreate env commandName user st)
      <> replyToNewcomer env commandName user st.

(** "Whatever balance the transaction reads, it commits a balance that
    is not negative." *)
Definition commitsNonNegative : Prop :=
  forall env1 env2 user st,
    Random.well_formed (rng env1) -> Random.well_formed (rng env2) ->
    (forall uid p, st !! uid = Some p -> 0 <= Profile.candy p) ->
    forall uid p,
      snd (twoInFlight env1 env2 user user st) !! uid = Some p ->
      0 <= Profile.candy p.

(** More inputs for the examples. *)

Definition katProfile (candy : Z) (inventory : list string) : Profile.t :=
  {| Profile.candy := candy;
     Profile.title := "New Trick-or-Treater";
     Profile.inventory := inventory;
     Profile.lastUsed := 0;
     Profile.username := Some "kat";
     Profile.message := None |}.

(** The same as [trickEnv], one second later. *)
Definition trickEnvLater : Env :=
  {| now := 1700000001000;
     rng := Random.of_list [0; 3 * 2 ^ 1072; 0];
     readFails := false;
     commitFails := false;
     topQuery := Some [] |}.

(** The profile read is rejected. *)
Definition readFailEnv : Env :=
  {| now := 1700000000000;
     rng := Random.of_list [0; 3 * 2 ^ 1072; 0];
     readFails := true;
     commitFails := false;
     topQuery := Some [] |}.

(** The order in which the query of line 378 delivers the documents:
    [orderBy('candy', 'desc')]. *)
Definition byCandyDesc (docs : list Profile.t) : Prop :=
  StronglySorted (fun a b => Profile.candy b <= Profile.candy a) docs.

(** Three leaderboard documents, two of them tied, as the candy
    descending query delivers them. *)
Definition tiedDocs : list Profile.t :=
  [ {| Profile.candy := 30; Profile.title := "New Trick-or-Treater";
       Profile.inventory := []; Profile.lastUsed := 1700000000000;
       Profile.username := Some "A"; Profile.message := None |};
    {| Profile.candy := 30; Profile.title := "New Trick-or-Treater";
       Profile.inventory := []; Profile.lastUsed := 1700000000000;
       Profile.username := Some "C"; Profile.message := None |};
    {| Profile.candy := 10; Profile.title := "New Trick-or-Treater";
       Profile.inventory := []; Profile.lastUsed := 1700000000000;
       Profile.username := Some "B"; Profile.message := None |} ].

Definition tiedEnv : Env :=
  {| now := 1700000000000;
     rng := Random.of_list [];
     readFails := false;
     commitFails := false;
     topQuery := Some tiedDocs |}.

(** ** Document paths (lines 16, 88 and 161) *)

(** [process.env.__app_id || 'halloween-bot']. *)
Definition appIdOf (app_id : option string) : string :=
  JS.or_opt_str app_id "halloween-bot".

(** The path of a user's profile document. *)
Definition profilePath (appId userId : string) : string :=
  "/artifacts/" +:+ appId +:+ "/users/" +:+ userId +:+ "/candy_data/profile".

(** ** The registered commands (lines 111-128): name and description *)

Definition commands : list (string * string) :=
  [ ("trickortreat", "Take a chance! Get candy, or get tricked...");
    ("inventory", "Check your current candy balance and title.");
    ("shop", "View the spooky items you can buy with candy.");
    ("topspook", "See the global leaderboard of the richest trick-or-treaters.") ].

(** ** Runs of several commands *)

(** One inbound command: what the environment does while it runs, its
    name and the invoking user. *)
Record Invocation := {
  invEnv : Env;
  invCommand : string;
  invUser : User.t
}.

(** Commands handled one after another, each from its first read to
    its reply before the next starts: the replies, in order, and the
    store at the end. *)
Fixpoint runAll (invs : list Invocation) (st : gmap string Profile.t)
  : list (option Reply) * gmap string Profile.t :=
  match invs with
  | [] => ([], st)
  | inv :: rest =>
      let (reply, st') :=
        interactionCreate (invEnv inv) (invCommand inv) (invUser inv) st in
      let (replies, st'') := runAll rest st' in
      (reply :: replies, st'')
  end.

(** The [try]/[catch] of the dispatcher around the rest of a handler:
    a throw becomes the failure notice. *)
Definition settle (m : Cmd.M Reply) (st : gmap string Profile.t)
  : Reply * gmap string Profile.t :=
  match m st with
  | (Cmd.Done reply, st') => (reply, st')
  | (Cmd.Throw _, st') => (Content ghostlyError, st')
  end.

(** Two [trickortreat] commands dispatched at once: both run up to
    their transaction, then the first commits and replies, then the
    second. *)
Definition overlapped (env1 env2 : Env) (user1 user2 : User.t)
    (st : gmap string Profile.t)
  : (Reply * Reply) * gmap string Profile.t :=
  let (d1, st1) := trickOrTreatDraw env1 user1 st in
  let (d2, st2) := trickOrTreatDraw env2 user2 st1 in
  let (reply1, st3) :=
    settle (Cmd.bind (fun s => (d1, s)) (trickOrTreatResume env1 user1)) st2 in
  let (reply2, st4) :=
    settle (Cmd.bind (fun s => (d2, s)) (trickOrTreatResume env2 user2)) st3 in
  ((reply1, reply2), st4).

(** ** Names for what the handlers compute on the way *)

(** The profile [getUserProfile] hands to a handler. *)
Definition profileRead (env : Env) (user : User.t)
    (st : gmap string Profile.t) : Profile.t :=
  if readFails env then errorProfile
  else match st !! User.id user with
       | Some data => data
       | None => defaultProfile
       end.

(** The outcome a [trickortreat] draws for the profile it read. *)
Definition outcomeDrawn (env : Env) (user : User.t)
    (st : gmap string Profile.t) : Outcome :=
  fst (computeOutcome (Profile.candy (profileRead env user st)) (rng env)).

(** The document the transaction of a [trickortreat] sets. *)
Definition committed (env : Env) (user : User.t)
    (st : gmap string Profile.t) : Profile.t :=
  commitUpdate env user (candyChange (outcomeDrawn env user st))
    (st !! User.id user).

(** The embed of lines 267-275 for an outcome and the document set. *)
Definition rewardEmbed (o : Outcome) (profile : Profile.t) : Embed.t :=
  {| Embed.color := outColor o;
     Embed.title := "üéÉ " +:+ outTitle o;
     Embed.description := Profile.message profile;
     Embed.thumbnail := None;
     Embed.fields :=
       [ Embed.mkField "Change"
           ((if candyChange o >? 0 then "+" else "") +:+
            JS.string_of_Z (candyChange o) +:+ " Candy") true;
         Embed.mkField "Total Candy"
           (JS.string_of_Z (Profile.candy profile)) true ];
     Embed.footer := "Next attempt available in 2 hours." |}.

(** Every stored balance is at least 0. *)
Definition balancesNonNegative (st : gmap string Profile.t) : Prop :=
  forall uid p, st !! uid = Some p -> 0 <= Profile.candy p.



(** * Properties *)

(** ** binary64 rounding *)

Section Float64Facts.

Import Float64.

Lemma ulp_pos (x : Z) : 0 < ulp x.
Proof. unfold ulp. apply Z.pow_pos_nonneg; lia. Qed.

(** Rounding to nearest moves a value by at most half a unit. *)
Lemma round_upper (x : Z) : 2 * round x <= 2 * x + ulp x.
Proof.
  unfold round.
  pose proof (ulp_pos x) as Hg.
  pose proof (Z.div_mod x (ulp x) ltac:(lia)) as Hdm.
  pose proof (Z.mod_pos_bound x (ulp x) Hg) as Hr.
  set (q := x / ulp x) in *. set (r := x mod ulp x) in *.
  set (g := ulp x) in *.
  destruct (Z.ltb_spec (2 * r) g); [lia|].
  destruct (Z.ltb_spec g (2 * r)); [lia|].
  destruct (Z.even q); lia.
Qed.

Lemma round_lower (x : Z) : 2 * x <= 2 * round x + ulp x.
Proof.
  unfold round.
  pose proof (ulp_pos x) as Hg.
  pose proof (Z.div_mod x (ulp x) ltac:(lia)) as Hdm.
  pose proof (Z.mod_pos_bound x (ulp x) Hg) as Hr.
  set (q := x / ulp x) in *. set (r := x mod ulp x) in *.
  set (g := ulp x) in *.
  destruct (Z.ltb_spec (2 * r) g); [lia|].
  destruct (Z.ltb_spec g (2 * r)); [lia|].
  destruct (Z.even q); lia.
Qed.

Lemma round_nonneg (x : Z) : 0 <= x -> 0 <= round x.
Proof.
  intros Hx. unfold round.
  pose proof (ulp_pos x) as Hg.
  assert (0 <= x / ulp x) by (apply Z.div_pos; lia).
  repeat match goal with |- context [if ?b then _ else _] => destruct b end; nia.
Qed.

(** The unit in the last place of a value below [2^(53 + e)] is at most [2^e]. *)
Lemma ulp_le (x e : Z) : 0 <= e -> x < 2 ^ (53 + e) -> ulp x <= 2 ^ e.
Proof.
  intros He Hx. unfold ulp.
  apply Z.pow_le_mono_r; [lia|].
  destruct (Z.le_gt_cases x 0) as [Hle|Hpos].
  - rewrite (Z.log2_nonpos x Hle). lia.
  - apply Z.log2_lt_pow2 in Hx; lia.
Qed.

(** The largest Number below one is [1 - 2^-53]. *)
Lemma draw_bounds (x : Z) :
  is_draw x = true -> 0 <= x <= one - 2 ^ 1021.
Proof.
  unfold is_draw, is_double. intros H.
  apply andb_prop in H as [H Hlt]. apply andb_prop in H as [H0 Hm].
  apply Z.leb_le in H0. apply Z.ltb_lt in Hlt. apply Z.eqb_eq in Hm.
  split; [assumption|].
  destruct (Z.lt_ge_cases x (2 ^ 1073)) as [Hs|Hb].
  - assert (2 ^ 1073 <= one - 2 ^ 1021) by (vm_compute; discriminate). lia.
  - assert (Hl : Z.log2 x = 1073).
    { apply Z.log2_unique; [lia|]. split; [exact Hb|exact Hlt]. }
    unfold ulp in Hm. rewrite Hl in Hm.
    change (Z.max 0 (1073 - 52)) with 1021 in Hm.
    apply Z.mod_divide in Hm; [|apply Z.pow_nonzero; lia].
    destruct Hm as [m Hm]. subst x.
    assert (Hone : one = 2 ^ 53 * 2 ^ 1021) by reflexivity.
    rewrite Hone in *.
    assert (0 < 2 ^ 1021) by (apply Z.pow_pos_nonneg; lia).
    nia.
Qed.

(** [Math.floor(Math.random() * k)] is one of [0 .. k-1] for every
    integer [k] that is not a power of two. *)
Lemma floor_mul_range (x k e : Z) :
  is_draw x = true -> 0 <= e -> 2 ^ e < k < 2 ^ (e + 1) ->
  0 <= floor_mul x k < k.
Proof.
  intros Hx He Hk. apply draw_bounds in Hx.
  assert (H2e : 0 < 2 ^ e) by (apply Z.pow_pos_nonneg; lia).
  unfold floor_mul, floor, mul_int.
  assert (Hone : 0 < one) by reflexivity.
  assert (Hup : round (x * k) < k * one).
  { pose proof (round_upper (x * k)) as Hr.
    assert (Hu : ulp (x * k) <= 2 ^ (1022 + e)).
    { apply ulp_le; [lia|].
      replace (53 + (1022 + e)) with (1074 + (e + 1)) by lia.
      rewrite Z.pow_add_r by lia. change (2 ^ 1074) with one. nia. }
    rewrite Z.pow_add_r in Hu by lia.
    assert (Hone' : one = 2 ^ 53 * 2 ^ 1021) by reflexivity.
    assert (H22 : 2 ^ 1022 = 2 * 2 ^ 1021) by reflexivity.
    assert (0 < 2 ^ 1021) by (apply Z.pow_pos_nonneg; lia).
    nia. }
  split.
  - apply Z.div_pos; [apply round_nonneg; nia|lia].
  - apply Z.div_lt_upper_bound; lia.
Qed.

(** The unit in the last place is a power of two that divides one,
    for values below [2^53]. *)
Lemma ulp_divides_one (x : Z) :
  x < 2 ^ 53 * one -> exists h, 0 < h /\ one = h * ulp x.
Proof.
  intros Hx. unfold ulp.
  set (u := Z.max 0 (Z.log2 x - 52)).
  assert (Hu : 0 <= u <= 1074).
  { subst u. split; [lia|].
    destruct (Z.le_gt_cases x 0) as [Hle|Hpos].
    - rewrite (Z.log2_nonpos x Hle). lia.
    - assert (Hl : Z.log2 x < 1127).
      { apply Z.log2_lt_pow2; [lia|].
        replace (2 ^ 1127) with (2 ^ 53 * one) by reflexivity. exact Hx. }
      lia. }
  exists (2 ^ (1074 - u)). split; [apply Z.pow_pos_nonneg; lia|].
  unfold one. rewrite <- Z.pow_add_r by lia. f_equal. lia.
Qed.

(** The unit in the last place of [x] is at most [x / 2^52], or 1. *)
Lemma ulp_small (x : Z) : 0 <= x -> ulp x = 1 \/ ulp x * 2 ^ 52 <= x.
Proof.
  intros Hx. unfold ulp.
  destruct (Z.le_gt_cases (Z.log2 x - 52) 0) as [Hle|Hgt].
  - left. rewrite Z.max_l by lia. reflexivity.
  - right. rewrite Z.max_r by lia.
    rewrite <- Z.pow_add_r by lia.
    replace (Z.log2 x - 52 + 52) with (Z.log2 x) by lia.
    assert (0 < x).
    { destruct (Z.eq_dec x 0) as [->|]; [simpl in Hgt; lia|lia]. }
    apply Z.log2_spec. assumption.
Qed.

(** What [round_ratio] returns: one of the two neighbours of [n / d] on
    the grid, the upper one only if the remainder reaches half a unit,
    and within half a unit of [n / d]. *)
Lemma round_ratio_spec (n d : Z) :
  0 <= n -> 0 < d ->
  let g := ulp (n / d) in
  exists k,
    round_ratio n d = k * g /\
    (k = n / (d * g) \/ (k = n / (d * g) + 1 /\ 0 < n mod (d * g))) /\
    2 * (k * (d * g)) <= 2 * n + d * g /\
    2 * n <= 2 * (k * (d * g)) + d * g.
Proof.
  intros Hn Hd g. unfold round_ratio. fold g.
  pose proof (ulp_pos (n / d)) as Hg. fold g in Hg.
  assert (HD : 0 < d * g) by nia.
  pose proof (Z.div_mod n (d * g) ltac:(lia)) as Hdm.
  pose proof (Z.mod_pos_bound n (d * g) HD) as Hr.
  set (q := n / (d * g)) in *. set (r := n mod (d * g)) in *.
  set (D := d * g) in *.
  destruct (Z.ltb_spec (2 * r) D).
  - exists q. split; [reflexivity|]. split; [left; reflexivity|]. lia.
  - destruct (Z.ltb_spec D (2 * r)).
    + exists (q + 1). split; [reflexivity|]. split; [right; lia|]. lia.
    + destruct (Z.even q).
      * exists q. split; [reflexivity|]. split; [left; reflexivity|]. lia.
      * exists (q + 1). split; [reflexivity|]. split; [right; lia|]. lia.
Qed.

(** The rounded quotient of two integral Numbers stays strictly
    between the integers around the exact quotient, and on the side of
    an integer it has reached. *)
Lemma div_int_between (a b lo hi : Z) :
  0 <= a < 2 ^ 53 -> 0 < b < 2 ^ 53 ->
  (lo * b <= a -> lo * one <= div_int a b) /\
  (a <= hi * b -> div_int a b <= hi * one) /\
  (lo * b < a -> lo * one < div_int a b) /\
  (a < hi * b -> div_int a b < hi * one).
Proof.
  intros Ha Hb. unfold div_int.
  assert (Hone : 0 < one) by reflexivity.
  assert (Hn : 0 <= a * one) by nia.
  destruct (round_ratio_spec (a * one) b Hn ltac:(lia)) as (k & -> & Hk & Hup & Hlo).
  set (x := a * one / b) in *.
  pose proof (ulp_pos x) as Hg.
  assert (Hx : 0 <= x) by (apply Z.div_pos; lia).
  assert (Hxb : x * b <= a * one).
  { subst x. rewrite Z.mul_comm. apply Z.mul_div_le. lia. }
  destruct (ulp_divides_one x) as (h & Hh & Hhg); [nia|].
  set (g := ulp x) in *.
  assert (HD : 0 < b * g) by nia.
  assert (Hsmall : b * g < 2 * one).
  { destruct (ulp_small x Hx) as [H1|H52]; fold g in H1 || fold g in H52.
    - rewrite H1. assert (2 ^ 53 < 2 * one) by reflexivity. lia.
    - assert (E52 : 0 < 2 ^ 52) by reflexivity.
      assert (E53 : 2 ^ 53 = 2 * 2 ^ 52) by reflexivity.
      nia. }
  pose proof (Z.div_mod (a * one) (b * g) ltac:(lia)) as Hdm.
  pose proof (Z.mod_pos_bound (a * one) (b * g) HD) as Hr.
  set (q := a * one / (b * g)) in *. set (r := a * one mod (b * g)) in *.
  assert (Hlo_le : forall i, i * b <= a -> i * one <= k * g).
  { intros i Hi.
    assert (i * h * (b * g) <= a * one) by nia.
    assert (i * h <= q) by nia.
    destruct Hk as [->|[-> _]]; nia. }
  assert (Hhi_le : forall i, a <= i * b -> k * g <= i * one).
  { intros i Hi.
    assert (Hle : a * one <= i * h * (b * g)) by nia.
    destruct Hk as [->|[-> Hpos]].
    - nia.
    - assert (q < i * h) by nia. nia. }
  split; [apply Hlo_le|]. split; [apply Hhi_le|].
  split.
  - intros Hlt.
    assert (Hgap : 2 * (lo * one * b) + 2 * one <= 2 * (a * one)) by nia.
    nia.
  - intros Hlt.
    assert (Hgap : 2 * (a * one) + 2 * one <= 2 * (hi * one * b)) by nia.
    nia.
Qed.

(** [Math.floor(a / b)] is the integer quotient. *)
Lemma div_int_floor (a b : Z) :
  0 <= a < 2 ^ 53 -> 0 < b < 2 ^ 53 -> floor (div_int a b) = a / b.
Proof.
  intros Ha Hb. unfold floor.
  assert (Hone : 0 < one) by reflexivity.
  pose proof (Z.div_mod a b ltac:(lia)) as Hdm.
  pose proof (Z.mod_pos_bound a b ltac:(lia)) as Hr.
  destruct (div_int_between a b (a / b) (a / b + 1) Ha Hb) as (Hlo & _ & _ & Hhi).
  specialize (Hlo ltac:(nia)). specialize (Hhi ltac:(nia)).
  symmetry. apply Z.div_unique with (r := div_int a b - a / b * one). 
  - left. lia.
  - lia.
Qed.

(** [Math.ceil(a / b)] is the integer quotient rounded up. *)
Lemma div_int_ceil (a b : Z) :
  0 <= a < 2 ^ 53 -> 0 < b < 2 ^ 53 -> ceil (div_int a b) = - ((- a) / b).
Proof.
  intros Ha Hb. unfold ceil.
  assert (Hone : 0 < one) by reflexivity.
  pose proof (Z.div_mod (- a) b ltac:(lia)) as Hdm.
  pose proof (Z.mod_pos_bound (- a) b ltac:(lia)) as Hr.
  set (c := - ((- a) / b)) in *.
  destruct (div_int_between a b (c - 1) c Ha Hb) as (_ & Hhi & Hlo & _).
  specialize (Hhi ltac:(nia)). specialize (Hlo ltac:(nia)).
  f_equal. symmetry.
  apply Z.div_unique with (r := c * one - div_int a b).
  - left. lia.
  - lia.
Qed.

Lemma round_as_ratio (x : Z) : round x = round_ratio x 1.
Proof.
  unfold round, round_ratio. rewrite Z.div_1_r, Z.mul_1_l. reflexivity.
Qed.

(** [Math.floor(x * k)] is [j] for every draw [x] with
    [j <= x * k < j + 1], up to half a unit in the last place at the
    upper end: rounding can only lift a product that is within half a
    unit of [j + 1]. *)
Lemma floor_mul_interval (x k e j : Z) :
  is_draw x = true -> 0 <= e < 52 -> 2 ^ e < k < 2 ^ (e + 1) ->
  (j * one <= x * k -> j <= floor_mul x k) /\
  (x * k + 2 ^ (1021 + e) < (j + 1) * one -> floor_mul x k <= j).
Proof.
  intros Hx He Hk. apply draw_bounds in Hx.
  assert (H2e : 0 < 2 ^ e) by (apply Z.pow_pos_nonneg; lia).
  assert (Hone : 0 < one) by reflexivity.
  assert (HP : 0 <= x * k) by nia.
  assert (Hk53 : k < 2 ^ 53).
  { assert (2 ^ (e + 1) <= 2 ^ 53) by (apply Z.pow_le_mono_r; lia). lia. }
  unfold floor_mul, floor, mul_int.
  split.
  - intros Hj. apply Z.div_le_lower_bound; [lia|].
    rewrite round_as_ratio.
    destruct (round_ratio_spec (x * k) 1 HP ltac:(lia)) as (q & -> & Hq & _ & _).
    rewrite Z.div_1_r in *.
    destruct (ulp_divides_one (x * k)) as (h & Hh & Hhg); [nia|].
    pose proof (ulp_pos (x * k)) as Hg.
    set (g := ulp (x * k)) in *. rewrite Z.mul_1_l in Hq.
    pose proof (Z.div_mod (x * k) g ltac:(lia)) as Hdm.
    pose proof (Z.mod_pos_bound (x * k) g Hg) as Hr.
    assert (j * h <= x * k / g) by nia.
    destruct Hq as [->|[-> _]]; nia.
  - intros Hj. 
    assert (Hu : ulp (x * k) <= 2 ^ (1022 + e)).
    { apply ulp_le; [lia|].
      replace (53 + (1022 + e)) with (1074 + (e + 1)) by lia.
      rewrite Z.pow_add_r by lia. change (2 ^ 1074) with one. nia. }
    replace (1022 + e) with (1 + (1021 + e)) in Hu by lia.
    rewrite Z.pow_add_r in Hu by lia. change (2 ^ 1) with 2 in Hu.
    pose proof (round_upper (x * k)) as Hr.
    assert (round (x * k) < (j + 1) * one) by lia.
    apply Z.lt_succ_r. apply Z.div_lt_upper_bound; lia.
Qed.

End Float64Facts.

(** The literals are the Numbers nearest to 1/10, 3/4 and 19/20. *)
Lemma literals_nearest :
  Float64.div_int 1 10 = Float64.lit_0_10 /\
  Float64.div_int 3 4 = Float64.lit_0_75 /\
  Float64.div_int 19 20 = Float64.lit_0_95 /\
  Float64.is_draw Float64.lit_0_10 = true /\
  Float64.is_draw Float64.lit_0_75 = true /\
  Float64.is_draw Float64.lit_0_95 = true /\
  2 * Z.abs (10 * Float64.lit_0_10 - Float64.one)
    < 10 * Float64.ulp Float64.lit_0_10 /\
  4 * Float64.lit_0_75 = 3 * Float64.one /\
  2 * Z.abs (20 * Float64.lit_0_95 - 19 * Float64.one)
    < 20 * Float64.ulp Float64.lit_0_95.
Proof. repeat split; vm_compute; reflexivity. Qed.

(** Every value of [0 .. k-1] is the floor of [k] times some draw, for
    the multipliers of the reward engine. *)
Lemma floor_mul_attained (k j : Z) :
  In k [3; 5; 6; 10; 20] -> 0 <= j < k ->
  Float64.is_draw (gridDraw k j) = true /\
  Float64.floor_mul (gridDraw k j) k = j.
Proof.
  intros Hk Hj. simpl in Hk.
  assert (Hcases : forallb (fun k =>
            forallb (fun j =>
              Float64.is_draw (gridDraw k j)
              && (Float64.floor_mul (gridDraw k j) k =? j))
              (map Z.of_nat (seq 0 (Z.to_nat k))))
            [3; 5; 6; 10; 20] = true) by (vm_compute; reflexivity).
  rewrite forallb_forall in Hcases.
  assert (Hin : In k [3; 5; 6; 10; 20]) by (simpl; tauto).
  specialize (Hcases k Hin). rewrite forallb_forall in Hcases.
  specialize (Hcases j).
  assert (Hj' : In j (map Z.of_nat (seq 0 (Z.to_nat k)))).
  { apply in_map_iff. exists (Z.to_nat j). split; [lia|].
    apply in_seq. lia. }
  specialize (Hcases Hj'). apply andb_prop in Hcases as [H1 H2].
  apply Z.eqb_eq in H2. split; assumption.
Qed.

(** ** Cooldown gate *)

(** C4: the reward action is allowed (the handler goes on to the draw)
    exactly when [lastUsed + COOLDOWN_TIME <= now], where the cooldown
    is 2 hours; when [now < lastUsed + COOLDOWN_TIME] it is blocked, the
    reply carries [remaining = lastUsed + COOLDOWN_TIME - now], and that
    remaining time is strictly positive. *)
Theorem cooldown_gate (env : Env) (user : User.t)
    (st : gmap string Profile.t) (profile : Profile.t) :
  fst (getUserProfile (readFails env) (User.id user) st) = Cmd.Done profile ->
  let lastUsed := Profile.lastUsed profile in
  COOLDOWN_TIME = 2 * 3600000 /\
  ((exists p o, fst (trickOrTreatDraw env user st) = Cmd.Done (Ready p o))
     <-> lastUsed + COOLDOWN_TIME <= now env) /\
  (fst (trickOrTreatDraw env user st)
     = Cmd.Done (Blocked (Content
         (cooldownContent (lastUsed + COOLDOWN_TIME - now env))))
     <-> now env < lastUsed + COOLDOWN_TIME) /\
  (now env < lastUsed + COOLDOWN_TIME
     <-> 0 < remainingTime lastUsed (now env)).
Proof.
  intros Hread lastUsed.
  assert (Hor : JS.or_num (Profile.lastUsed profile) 0 = lastUsed).
  { unfold JS.or_num, lastUsed. destruct (Z.eqb_spec (Profile.lastUsed profile) 0); lia. }
  assert (Hdraw : fst (trickOrTreatDraw env user st) =
    if onCooldown lastUsed (now env)
    then Cmd.Done (Blocked (Content (cooldownContent (remainingTime lastUsed (now env)))))
    else Cmd.Done (Ready
           {| Profile.candy := Profile.candy profile;
              Profile.title := Profile.title profile;
              Profile.inventory := Profile.inventory profile;
              Profile.lastUsed := Profile.lastUsed profile;
              Profile.username := Profile.username profile;
              Profile.message :=
                outMessage (fst (computeOutcome (Profile.candy profile) (rng env))) |}
           (fst (computeOutcome (Profile.candy profile) (rng env))))).
  { unfold trickOrTreatDraw, Cmd.bind.
    destruct (getUserProfile (readFails env) (User.id user) st) as [res st'].
    simpl in Hread. subst res. rewrite Hor.
    destruct (onCooldown lastUsed (now env)); reflexivity. }
  rewrite Hdraw. unfold onCooldown, remainingTime.
  split; [reflexivity|].
  destruct (Z.gtb_spec (lastUsed + COOLDOWN_TIME) (now env)) as [Hb|Ha].
  - split; [|split].
    + split; [intros (p & o & H); discriminate | lia].
    + split; [lia | intros _; reflexivity].
    + lia.
  - split; [|split].
    + split; [lia | intros _; eauto].
    + split; [intros H; discriminate | lia].
    + lia.
Qed.

Lemma cooldown_gate_witness :
  fst (getUserProfile (readFails trickEnv) (User.id kat) ∅)
    = Cmd.Done defaultProfile /\
  ((exists p o, fst (trickOrTreatDraw trickEnv kat ∅) = Cmd.Done (Ready p o))
     <-> 0 + COOLDOWN_TIME <= now trickEnv).
Proof.
  split; [reflexivity|].
  pose proof (cooldown_gate trickEnv kat ∅ defaultProfile eq_refl) as H.
  simpl in H. destruct H as (_ & H & _). exact H.
Defined.

(** C5: a blocked action shows [hours = floor(remaining / 1 hour)] and
    [minutes = ceiling((remaining mod 1 hour) / 1 minute)], the minutes
    being taken from what is left after the whole hours and rounded up
    (the binary64 quotients round to Numbers with that floor and that
    ceiling); 5,400,000 ms is shown as [1h 30m] and 1000 ms has the
    minutes component 1. *)
Theorem wait_display (remaining : Z) :
  0 < remaining < 2 ^ 53 ->
  let h := remainingHours remaining in
  let m := remainingMinutes remaining in
  h = remaining / 3600000 /\
  m = - ((- (remaining mod 3600000)) / 60000) /\
  3600000 * h <= remaining < 3600000 * (h + 1) /\
  60000 * (m - 1) < remaining - 3600000 * h <= 60000 * m /\
  waitText remaining = JS.string_of_Z h +:+ "h " +:+ JS.string_of_Z m +:+ "m" /\
  waitText 5400000 = "1h 30m" /\
  remainingMinutes 1000 = 1 /\
  waitText 1000 = "0h 1m".
Proof.
  intros Hpos h m.
  assert (H53 : 2 ^ 53 = 9007199254740992) by reflexivity.
  pose proof (Z.div_mod remaining 3600000 ltac:(lia)) as Hd.
  pose proof (Z.mod_pos_bound remaining 3600000 ltac:(lia)) as Hr.
  assert (Hh : h = remaining / 3600000).
  { subst h. unfold remainingHours.
    change (1000 * 60 * 60) with 3600000.
    apply div_int_floor; lia. }
  assert (Hm : m = - ((- (remaining mod 3600000)) / 60000)).
  { subst m. unfold remainingMinutes, JS.rem.
    change (1000 * 60 * 60) with 3600000. change (1000 * 60) with 60000.
    rewrite Z.rem_mod_nonneg by lia.
    apply div_int_ceil; lia. }
  pose proof (Z.div_mod (- (remaining mod 3600000)) 60000 ltac:(lia)) as Hd'.
  pose proof (Z.mod_pos_bound (- (remaining mod 3600000)) 60000 ltac:(lia)) as Hs.
  split; [exact Hh|]. split; [exact Hm|].
  split; [lia|]. split; [lia|].
  split; [reflexivity|].
  repeat split; vm_compute; reflexivity.
Qed.

Lemma wait_display_witness :
  0 < 5400000 < 2 ^ 53 /\
  remainingHours 5400000 = 5400000 / 3600000 /\
  remainingMinutes 5400000 = - ((- (5400000 mod 3600000)) / 60000).
Proof.
  assert (Hin : 0 < 5400000 < 2 ^ 53) by (split; reflexivity).
  split; [exact Hin|].
  pose proof (wait_display 5400000 Hin) as H.
  cbv zeta in H. destruct H as (H1 & H2 & _). split; [exact H1 | exact H2].
Defined.

(** ** Reward engine *)

Section RewardEngine.

Variable currentCandy : Z.
Variable r : Random.Rng.

Lemma computeOutcome_trick :
  r 0%nat < Float64.lit_0_10 ->
  fst (computeOutcome currentCandy r) =
  {| candyChange := trickChange currentCandy (r 1%nat);
     outTitle := "A Nasty Trick!";
     outColor := "#b22222";
     outMessage :=
       index (tricks (trickChange currentCandy (r 1%nat))) (Float64.floor_mul (r 2%nat) 3) |}.
Proof.
  intros H. apply Z.ltb_lt in H.
  unfold computeOutcome, Random.bind, Random.random, Random.ret, Float64.ltb.
  cbv zeta. rewrite H. reflexivity.
Qed.

Lemma computeOutcome_common :
  Float64.lit_0_10 <= r 0%nat -> r 1%nat < Float64.lit_0_75 ->
  fst (computeOutcome currentCandy r) =
  {| candyChange := Float64.floor_mul (r 2%nat) 5 + 1;
     outTitle := "A Sweet Treat!";
     outColor := "#ff6700";
     outMessage := Some ("You got " +:+ JS.string_of_Z (Float64.floor_mul (r 2%nat) 5 + 1)
                         +:+ " pieces of candy!") |}.
Proof.
  intros H1 H2. apply Z.ltb_ge in H1. apply Z.ltb_lt in H2.
  unfold computeOutcome, Random.bind, Random.random, Random.ret, Float64.ltb.
  cbv zeta. rewrite H1, H2. reflexivity.
Qed.

Lemma computeOutcome_rare :
  Float64.lit_0_10 <= r 0%nat -> Float64.lit_0_75 <= r 1%nat < Float64.lit_0_95 ->
  fst (computeOutcome currentCandy r) =
  {| candyChange := Float64.floor_mul (r 2%nat) 10 + 6;
     outTitle := "Bonus Haul!";
     outColor := "#ffd700";
     outMessage := Some ("You got " +:+ JS.string_of_Z (Float64.floor_mul (r 2%nat) 10 + 6)
                         +:+ " pieces of candy!") |}.
Proof.
  intros H1 [H2 H3]. apply Z.ltb_ge in H1, H2. apply Z.ltb_lt in H3.
  unfold computeOutcome, Random.bind, Random.random, Random.ret, Float64.ltb.
  cbv zeta. rewrite H1, H2, H3. reflexivity.
Qed.

Lemma computeOutcome_jackpot :
  Float64.lit_0_10 <= r 0%nat -> Float64.lit_0_95 <= r 1%nat ->
  fst (computeOutcome currentCandy r) =
  {| candyChange := Float64.floor_mul (r 2%nat) 20 + 16;
     outTitle := "Jackpot! The Motherlode!";
     outColor := "#A020F0";
     outMessage := Some ("You got " +:+ JS.string_of_Z (Float64.floor_mul (r 2%nat) 20 + 16)
                         +:+ " pieces of candy!") |}.
Proof.
  intros H1 H3.
  assert (H2 : Float64.lit_0_75 <= r 1%nat).
  { assert (Float64.lit_0_75 <= Float64.lit_0_95) by (vm_compute; discriminate). lia. }
  apply Z.ltb_ge in H1, H2, H3.
  unfold computeOutcome, Random.bind, Random.random, Random.ret, Float64.ltb.
  cbv zeta. rewrite H1, H2, H3. reflexivity.
Qed.

End RewardEngine.

Lemma trickChange_eq (currentCandy m : Z) :
  trickChange currentCandy m =
  if currentCandy + - (Float64.floor_mul m 6 + 1) <? 0
  then - currentCandy else - (Float64.floor_mul m 6 + 1).
Proof.
  unfold trickChange.
  replace (- Float64.floor_mul m 6 - 1) with (- (Float64.floor_mul m 6 + 1)) by lia.
  reflexivity.
Qed.

(** A trick never takes more than the balance it was computed for. *)
Lemma trickChange_floor (currentCandy m : Z) :
  0 <= currentCandy -> 0 <= currentCandy + trickChange currentCandy m.
Proof.
  intros Hc. rewrite trickChange_eq.
  destruct (Z.ltb_spec (currentCandy + - (Float64.floor_mul m 6 + 1)) 0); lia.
Qed.

(** Every line of [tricks] reports the absolute value of its argument. *)
Lemma tricks_lines (c : Z) :
  tricks c =
  map (fun line => line +:+ JS.string_of_Z (Z.abs c) +:+ "** candy.") trickLines.
Proof. reflexivity. Qed.


Lemma of_list_well_formed (l : list Z) :
  forallb Float64.is_draw l = true -> Random.well_formed (Random.of_list l).
Proof.
  intros Hl n. unfold Random.of_list.
  rewrite forallb_forall in Hl.
  destruct (Nat.lt_ge_cases n (length l)) as [Hn|Hn].
  - apply Hl. apply nth_In. exact Hn.
  - rewrite nth_overflow by exact Hn. reflexivity.
Defined.


(** A balance of 2 and a drawn magnitude of 5: the deduction is
    clamped to 2 and the message reports 2, not 5. *)
Example trick_reports_clamped_amount :
  Float64.floor_mul (rng trickEnv 1%nat) 6 + 1 = 5 /\
  fst (computeOutcome 2 (rng trickEnv)) =
  {| candyChange := -2;
     outTitle := "A Nasty Trick!";
     outColor := "#b22222";
     outMessage :=
       Some "A zombie swapped your bag for one full of leaves! You lost **2** candy." |}.
Proof. split; vm_compute; reflexivity. Qed.

(** C3: in the treat branch the second draw selects the tier: below
    [0.75] Common with a magnitude in [1..5], from [0.75] and below
    [0.95] Rare with [6..15], from [0.95] Jackpot with [16..35]; the
    draws [0.75] and [0.95] themselves select Rare and Jackpot; the
    change is the magnitude itself, whatever the balance; every
    magnitude of a tier is drawn for some draw, and the third draw [m]
    gives the [j]-th magnitude of a tier of [k] magnitudes whenever
    [j <= m * k < j + 1], up to rounding at the upper end. *)
Theorem treat_branch (currentCandy : Z) (r : Random.Rng) :
  Random.well_formed r ->
  Float64.lit_0_10 <= r 0%nat ->
  let o := fst (computeOutcome currentCandy r) in
  let p2 := r 1%nat in
  let m := r 2%nat in
  (p2 < Float64.lit_0_75 ->
     outTitle o = "A Sweet Treat!" /\
     candyChange o = Float64.floor_mul m 5 + 1 /\ 1 <= candyChange o <= 5) /\
  (Float64.lit_0_75 <= p2 < Float64.lit_0_95 ->
     outTitle o = "Bonus Haul!" /\
     candyChange o = Float64.floor_mul m 10 + 6 /\ 6 <= candyChange o <= 15) /\
  (Float64.lit_0_95 <= p2 ->
     outTitle o = "Jackpot! The Motherlode!" /\
     candyChange o = Float64.floor_mul m 20 + 16 /\ 16 <= candyChange o <= 35) /\
  (p2 = Float64.lit_0_75 -> outTitle o = "Bonus Haul!") /\
  (p2 = Float64.lit_0_95 -> outTitle o = "Jackpot! The Motherlode!") /\
  (forall c, candyChange (fst (computeOutcome c r)) = candyChange o) /\
  0 < candyChange o /\
  outMessage o =
    Some ("You got " +:+ JS.string_of_Z (candyChange o) +:+ " pieces of candy!") /\
  (forall j, (1 <= j <= 5 ->
              exists x, Float64.is_draw x = true /\ Float64.floor_mul x 5 + 1 = j) /\
             (6 <= j <= 15 ->
              exists x, Float64.is_draw x = true /\ Float64.floor_mul x 10 + 6 = j) /\
             (16 <= j <= 35 ->
              exists x, Float64.is_draw x = true /\ Float64.floor_mul x 20 + 16 = j)) /\
  (forall j, (j * Float64.one <= m * 5 ->
              m * 5 + 2 ^ 1023 < (j + 1) * Float64.one ->
              Float64.floor_mul m 5 + 1 = j + 1) /\
             (j * Float64.one <= m * 10 ->
              m * 10 + 2 ^ 1024 < (j + 1) * Float64.one ->
              Float64.floor_mul m 10 + 6 = j + 6) /\
             (j * Float64.one <= m * 20 ->
              m * 20 + 2 ^ 1025 < (j + 1) * Float64.one ->
              Float64.floor_mul m 20 + 16 = j + 16)).
Proof.
  intros Hr Hp1 o p2 m. subst p2 m.
  set (p2 := r 1%nat) in *. set (m := r 2%nat) in *.
  pose proof (floor_mul_range m 5 2 (Hr 2%nat) ltac:(lia) ltac:(simpl; lia)) as H5.
  pose proof (floor_mul_range m 10 3 (Hr 2%nat) ltac:(lia) ltac:(simpl; lia)) as H10.
  pose proof (floor_mul_range m 20 4 (Hr 2%nat) ltac:(lia) ltac:(simpl; lia)) as H20.
  assert (H7595 : Float64.lit_0_75 < Float64.lit_0_95) by (vm_compute; reflexivity).
  assert (Hcommon : p2 < Float64.lit_0_75 ->
            outTitle o = "A Sweet Treat!" /\
            candyChange o = Float64.floor_mul m 5 + 1 /\ 1 <= candyChange o <= 5).
  { intros H. subst o. rewrite computeOutcome_common by assumption. cbn [candyChange outTitle]. fold m.
    split; [reflexivity | lia]. }
  assert (Hrare : Float64.lit_0_75 <= p2 < Float64.lit_0_95 ->
            outTitle o = "Bonus Haul!" /\
            candyChange o = Float64.floor_mul m 10 + 6 /\ 6 <= candyChange o <= 15).
  { intros H. subst o. rewrite computeOutcome_rare by assumption. cbn [candyChange outTitle]. fold m.
    split; [reflexivity | lia]. }
  assert (Hjackpot : Float64.lit_0_95 <= p2 ->
            outTitle o = "Jackpot! The Motherlode!" /\
            candyChange o = Float64.floor_mul m 20 + 16 /\ 16 <= candyChange o <= 35).
  { intros H. subst o. rewrite computeOutcome_jackpot by assumption. cbn [candyChange outTitle]. fold m.
    split; [reflexivity | lia]. }
  split; [exact Hcommon|]. split; [exact Hrare|]. split; [exact Hjackpot|].
  split; [intros H; apply Hrare; lia|].
  split; [intros H; apply Hjackpot; lia|].
  split.
  { intros c. subst o.
    destruct (Z.lt_ge_cases p2 Float64.lit_0_75) as [Hc|Hc].
    - rewrite !computeOutcome_common by assumption. reflexivity.
    - destruct (Z.lt_ge_cases p2 Float64.lit_0_95) as [Hj|Hj].
      + rewrite !computeOutcome_rare by (try split; assumption). reflexivity.
      + rewrite !computeOutcome_jackpot by assumption. reflexivity. }
  split.
  { destruct (Z.lt_ge_cases p2 Float64.lit_0_75) as [Hc|Hc]; [apply Hcommon in Hc; lia|].
    destruct (Z.lt_ge_cases p2 Float64.lit_0_95) as [Hj|Hj];
      [assert (Hb : Float64.lit_0_75 <= p2 < Float64.lit_0_95) by lia; apply Hrare in Hb; lia
      |apply Hjackpot in Hj; lia]. }
  split.
  { subst o.
    destruct (Z.lt_ge_cases p2 Float64.lit_0_75) as [Hc|Hc].
    - rewrite !computeOutcome_common by assumption. reflexivity.
    - destruct (Z.lt_ge_cases p2 Float64.lit_0_95) as [Hj|Hj].
      + rewrite !computeOutcome_rare by (try split; assumption). reflexivity.
      + rewrite !computeOutcome_jackpot by assumption. reflexivity. }
  split; [|intros j; split; [|split]; intros Hlo Hhi].
  2: { destruct (floor_mul_interval m 5 2 j (Hr 2%nat)
                   ltac:(lia) ltac:(simpl; lia)) as [Hge Hle].
       specialize (Hge Hlo). specialize (Hle Hhi). lia. }
  2: { destruct (floor_mul_interval m 10 3 j (Hr 2%nat)
                   ltac:(lia) ltac:(simpl; lia)) as [Hge Hle].
       specialize (Hge Hlo). specialize (Hle Hhi). lia. }
  2: { destruct (floor_mul_interval m 20 4 j (Hr 2%nat)
                   ltac:(lia) ltac:(simpl; lia)) as [Hge Hle].
       specialize (Hge Hlo). specialize (Hle Hhi). lia. }
  intros j. split; [|split]; intros Hj.
  - exists (gridDraw 5 (j - 1)).
    destruct (floor_mul_attained 5 (j - 1)) as [H1 H2];
      [repeat (first [left; reflexivity | right]) | lia |].
    split; [exact H1 | lia].
  - exists (gridDraw 10 (j - 6)).
    destruct (floor_mul_attained 10 (j - 6)) as [H1 H2];
      [repeat (first [left; reflexivity | right]) | lia |].
    split; [exact H1 | lia].
  - exists (gridDraw 20 (j - 16)).
    destruct (floor_mul_attained 20 (j - 16)) as [H1 H2];
      [repeat (first [left; reflexivity | right]) | lia |].
    split; [exact H1 | lia].
Qed.

Lemma treat_branch_witness :
  Random.well_formed (treatRng Float64.lit_0_95 0) /\
  Float64.lit_0_10 <= treatRng Float64.lit_0_95 0 0%nat /\
  outTitle (fst (computeOutcome 7 (treatRng Float64.lit_0_95 0)))
    = "Jackpot! The Motherlode!".
Proof.
  assert (Hwf : Random.well_formed (treatRng Float64.lit_0_95 0))
    by (apply of_list_well_formed; vm_compute; reflexivity).
  assert (Hp1 : Float64.lit_0_10 <= treatRng Float64.lit_0_95 0 0%nat)
    by (vm_compute; discriminate).
  split; [exact Hwf|]. split; [exact Hp1|].
  pose proof (treat_branch 7 (treatRng Float64.lit_0_95 0) Hwf Hp1) as H.
  cbv zeta in H. destruct H as (_ & _ & _ & _ & H & _). apply H. reflexivity.
Defined.

(** The boundary draws: [0.75] gives a Rare treat, [0.95] a Jackpot. *)
Example tier_boundaries :
  outTitle (fst (computeOutcome 0 (treatRng Float64.lit_0_75 0))) = "Bonus Haul!" /\
  candyChange (fst (computeOutcome 0 (treatRng Float64.lit_0_75 0))) = 6 /\
  outTitle (fst (computeOutcome 0 (treatRng Float64.lit_0_95 0)))
    = "Jackpot! The Motherlode!" /\
  candyChange (fst (computeOutcome 0 (treatRng Float64.lit_0_95 0))) = 16.
Proof. repeat split; vm_compute; reflexivity. Qed.

(** ** Shop catalog *)

Lemma owns_elem_of (profile : Profile.t) (item : ShopItem.t) :
  owns profile item = true <-> ShopItem.id item ∈ Profile.inventory profile.
Proof.
  unfold owns. rewrite existsb_exists, list_elem_of_In. split.
  - intros (x & Hin & Heq). apply String.eqb_eq in Heq. subst x. exact Hin.
  - intros Hin. exists (ShopItem.id item). split; [exact Hin|apply String.eqb_refl].
Qed.

Lemma getUserProfile_readOnly (fails : bool) (userId : string) :
  readOnly (getUserProfile fails userId).
Proof.
  intros st. unfold getUserProfile, Cmd.catch, Cmd.bind, Cmd.getDoc, Cmd.ret.
  destruct fails; [reflexivity|]. destruct (st !! userId); reflexivity.
Qed.

(** What [getUserProfile] returns: the stored document, the default
    profile when there is none, the fallback when the read is rejected. *)
Lemma getUserProfile_value (fails : bool) (userId : string)
    (st : gmap string Profile.t) :
  getUserProfile fails userId st =
  (Cmd.Done (if fails then errorProfile
             else match st !! userId with
                  | Some data => data
                  | None => defaultProfile
                  end), st).
Proof.
  unfold getUserProfile, Cmd.catch, Cmd.bind, Cmd.getDoc, Cmd.ret.
  destruct fails; [reflexivity|]. destruct (st !! userId); reflexivity.
Qed.

(** The shop command replies with the catalog rendered for the profile
    it read and writes nothing. *)
Lemma handleShop_value (env : Env) (user : User.t) (st : gmap string Profile.t) :
  handleShop env user st =
  (Cmd.Done (Embeds
     {| Embed.color := "#8b008b";
        Embed.title := "üõçÔ∏è Spooky Title Shop";
        Embed.description :=
          Some (shopDescription
                  (if readFails env then errorProfile
                   else match st !! User.id user with
                        | Some data => data
                        | None => defaultProfile
                        end));
        Embed.thumbnail := None;
        Embed.fields := [];
        Embed.footer := "To purchase, use /shop <item ID> (e.g., /shop hat)" |}),
   st).
Proof.
  unfold handleShop, Cmd.bind. rewrite getUserProfile_value. reflexivity.
Qed.

(** C6: the catalog is the same three items in declaration order, each
    with a positive cost; a shop command leaves the store as it was, so
    a second call lists the same items with the same text; and the
    status of an item is Owned if its id is in the inventory, else
    Buyable if the balance covers the cost, else TooExpensive. *)
Theorem shop_catalog :
  length SHOP_ITEMS = 3%nat /\
  map ShopItem.id SHOP_ITEMS = ["hat"; "mask"; "ghost"] /\
  Forall (fun item => 0 < ShopItem.cost item) SHOP_ITEMS /\
  (forall env user st,
     exists reply,
       handleShop env user st = (Cmd.Done reply, st) /\
       Cmd.bind (handleShop env user)
         (fun first => Cmd.bind (handleShop env user)
            (fun second => Cmd.ret (first, second))) st
       = (Cmd.Done (reply, reply), st)) /\
  (forall profile,
     exists hat mask ghost,
       SHOP_ITEMS = [hat; mask; ghost] /\
       shopDescription profile =
         ((("You have **" +:+ JS.string_of_Z (Profile.candy profile) +:+
            " üç¨** to spend." +:+ JS.nl +:+ JS.nl)
           +:+ shopEntry profile hat)
          +:+ shopEntry profile mask)
         +:+ shopEntry profile ghost) /\
  (forall profile item,
     statusText profile item = statusLabel (affordability profile item)) /\
  (forall a b, statusLabel a = statusLabel b -> a = b).
Proof.
  split; [reflexivity|]. split; [reflexivity|].
  split; [repeat constructor|].
  split.
  { intros env user st.
    unfold Cmd.bind. rewrite !handleShop_value.
    eexists. split; reflexivity. }
  split.
  { intros profile. do 3 eexists. split; reflexivity. }
  split.
  { intros profile item. unfold statusText, affordability.
    destruct (decide (ShopItem.id item ∈ Profile.inventory profile)) as [Hin|Hnin].
    - apply owns_elem_of in Hin. rewrite Hin. reflexivity.
    - destruct (owns profile item) eqn:Ho; [apply owns_elem_of in Ho; contradiction|].
      rewrite Z.geb_leb.
      destruct (decide (ShopItem.cost item <= Profile.candy profile)) as [Hle|Hgt].
      + apply Z.leb_le in Hle. rewrite Hle. reflexivity.
      + apply Z.leb_nle in Hgt. rewrite Hgt. reflexivity. }
  intros [] []; simpl; intros H; try reflexivity; discriminate H.
Qed.

(** ** Leaderboard *)

Lemma leaderboardLines_length (rank : Z) (docs : list Profile.t) :
  length (leaderboardLines rank docs) = length docs.
Proof.
  revert rank. induction docs as [|data rest IH]; intros rank; simpl.
  - reflexivity.
  - rewrite IH. reflexivity.
Qed.

(** The counter has advanced by one for every document before. *)
Lemma leaderboardLines_lookup (rank : Z) (docs : list Profile.t)
    (i : nat) (data : Profile.t) :
  docs !! i = Some data ->
  leaderboardLines rank docs !! i
    = Some (leaderboardLine (rank + Z.of_nat i) data).
Proof.
  revert rank i. induction docs as [|d rest IH]; intros rank i Hi.
  - discriminate Hi.
  - destruct i as [|i]; simpl in *.
    + injection Hi as ->. rewrite Z.add_0_r. reflexivity.
    + rewrite (IH (rank + 1) i Hi). f_equal. f_equal. lia.
Qed.

Lemma byCandyDesc_lookup (docs : list Profile.t) (i j : nat)
    (a b : Profile.t) :
  byCandyDesc docs -> (i < j)%nat ->
  docs !! i = Some a -> docs !! j = Some b ->
  Profile.candy b <= Profile.candy a.
Proof.
  intros Hs. revert i j. induction Hs as [|d rest Hs IH Hall]; intros i j Hij Ha Hb.
  - discriminate Ha.
  - destruct j as [|j]; [lia|]. simpl in Hb.
    destruct i as [|i]; simpl in Ha.
    + injection Ha as ->. rewrite Forall_forall in Hall.
      apply Hall. eapply list_elem_of_lookup_2. exact Hb.
    + apply (IH i j); [lia | assumption | assumption].
Qed.

(** A populated leaderboard starts with the rank marker. *)
Lemma populated_text_head (data : Profile.t) (rest : list Profile.t) :
  exists tail,
    JS.join JS.nl (leaderboardLines 1 (data :: rest)) = String "*" tail.
Proof.
  destruct rest; simpl; eexists; reflexivity.
Qed.

Lemma leaderboardText_value (env : Env) (st : gmap string Profile.t) :
  leaderboardText env st =
  (Cmd.Done match topQuery env with
            | None => unavailableText
            | Some [] => emptyText
            | Some docs => JS.join JS.nl (leaderboardLines 1 docs)
            end, st).
Proof.
  unfold leaderboardText, Cmd.catch, Cmd.bind, getDocs.
  destruct (topQuery env) as [[|d rest]|]; reflexivity.
Qed.

(** C7: the lines carry the ranks 1, 2, ..., n in the order in which
    the documents are delivered (candy descending), one rank per
    document whatever the balances; an empty population gives the
    empty text, a rejected query the unavailable text, and the empty,
    unavailable and populated texts are pairwise different. *)
Theorem leaderboard_ranks (env : Env) (st : gmap string Profile.t)
    (docs : list Profile.t) :
  topQuery env = Some docs ->
  let lines := leaderboardLines 1 docs in
  length lines = length docs /\
  (forall i data, docs !! i = Some data ->
     lines !! i = Some (leaderboardLine (Z.of_nat i + 1) data)) /\
  (byCandyDesc docs ->
   forall i j a b, (i < j)%nat -> docs !! i = Some a -> docs !! j = Some b ->
     lines !! i = Some (leaderboardLine (Z.of_nat i + 1) a) /\
     lines !! j = Some (leaderboardLine (Z.of_nat j + 1) b) /\
     Z.of_nat i + 1 < Z.of_nat j + 1 /\
     Profile.candy b <= Profile.candy a) /\
  (exists text e,
     leaderboardText env st = (Cmd.Done text, st) /\
     handleTopSpook env st = (Cmd.Done (Embeds e), st) /\
     Embed.description e = Some text /\
     (docs = [] -> text = emptyText) /\
     (docs <> [] ->
        text = JS.join JS.nl lines /\
        text <> emptyText /\ text <> unavailableText)) /\
  (forall env', topQuery env' = None ->
     leaderboardText env' st = (Cmd.Done unavailableText, st)) /\
  emptyText <> unavailableText.
Proof.
  intros Hq lines.
  split; [apply leaderboardLines_length|].
  assert (Hlk : forall i data, docs !! i = Some data ->
            lines !! i = Some (leaderboardLine (Z.of_nat i + 1) data)).
  { intros i data Hi. subst lines.
    rewrite (leaderboardLines_lookup 1 docs i data Hi). f_equal. f_equal. lia. }
  split; [exact Hlk|].
  split.
  { intros Hs i j a b Hij Ha Hb.
    split; [apply Hlk; exact Ha|]. split; [apply Hlk; exact Hb|].
    split; [lia|]. eapply byCandyDesc_lookup; eassumption. }
  split.
  { unfold handleTopSpook, Cmd.bind. rewrite leaderboardText_value, Hq.
    do 2 eexists. split; [reflexivity|]. split; [reflexivity|].
    split; [reflexivity|].
    split.
    - intros ->. reflexivity.
    - intros Hne. destruct docs as [|d rest]; [contradiction|].
      split; [reflexivity|].
      destruct (populated_text_head d rest) as [tail Ht].
      subst lines. rewrite Ht. split; discriminate. }
  split.
  { intros env' Hq'. rewrite leaderboardText_value, Hq'. reflexivity. }
  discriminate.
Qed.

Lemma leaderboard_ranks_witness :
  topQuery tiedEnv = Some tiedDocs /\
  leaderboardLines 1 tiedDocs !! 1%nat
    = Some "**#2** C (`New Trick-or-Treater`): **30** üç¨".
Proof.
  split; [reflexivity|].
  pose proof (leaderboard_ranks tiedEnv ∅ tiedDocs eq_refl) as H.
  cbv zeta in H. destruct H as (_ & H & _).
  exact (H 1%nat _ eq_refl).
Defined.

(** ** What the commands write *)

Lemma readOnly_ret {A} (a : A) : readOnly (Cmd.ret a).
Proof. intros st. reflexivity. Qed.

Lemma readOnly_throw {A} (e : Cmd.error) : readOnly (@Cmd.throw A e).
Proof. intros st. reflexivity. Qed.

Lemma readOnly_bind {A B} (m : Cmd.M A) (f : A -> Cmd.M B) :
  readOnly m -> (forall a, readOnly (f a)) -> readOnly (Cmd.bind m f).
Proof.
  intros Hm Hf st. unfold Cmd.bind. specialize (Hm st).
  destruct (m st) as [[a|e] st']; simpl in Hm; subst st'.
  - apply Hf.
  - reflexivity.
Qed.

Lemma readOnly_catch {A} (m : Cmd.M A) (h : Cmd.error -> Cmd.M A) :
  readOnly m -> (forall e, readOnly (h e)) -> readOnly (Cmd.catch m h).
Proof.
  intros Hm Hh st. unfold Cmd.catch. specialize (Hm st).
  destruct (m st) as [[a|e] st']; simpl in Hm; subst st'.
  - reflexivity.
  - apply Hh.
Qed.

Lemma readOnly_mapM {A B} (f : A -> Cmd.M B) (items : list A) :
  (forall a, readOnly (f a)) -> readOnly (Cmd.mapM f items).
Proof.
  intros Hf. induction items as [|x rest IH]; simpl.
  - intros st. reflexivity.
  - apply readOnly_bind; [apply Hf|]. intros y.
    apply readOnly_bind; [exact IH|]. intros ys. apply readOnly_ret.
Qed.

Lemma itemName_readOnly (id : string) : readOnly (itemName id).
Proof.
  unfold itemName. destruct (findItem id); [apply readOnly_ret|apply readOnly_throw].
Qed.

Lemma handleInventory_readOnly (env : Env) (user : User.t) :
  readOnly (handleInventory env user).
Proof.
  unfold handleInventory.
  apply readOnly_bind; [apply getUserProfile_readOnly|]. intros profile.
  apply readOnly_bind; [|intros owned; apply readOnly_ret].
  unfold itemsOwned.
  destruct (0 <? Z.of_nat (length (Profile.inventory profile)));
    [|apply readOnly_ret].
  apply readOnly_bind; [|intros names; apply readOnly_ret].
  apply readOnly_mapM. apply itemName_readOnly.
Qed.


Lemma handleTopSpook_readOnly (env : Env) : readOnly (handleTopSpook env).
Proof.
  intros st. unfold handleTopSpook, Cmd.bind.
  rewrite leaderboardText_value. reflexivity.
Qed.

(** What the part of [trickortreat] before the transaction returns,
    for the profile [getUserProfile] hands it. *)
Lemma trickOrTreatDraw_value (env : Env) (user : User.t)
    (st : gmap string Profile.t) :
  let profile :=
    if readFails env then errorProfile
    else match st !! User.id user with
         | Some data => data
         | None => defaultProfile
         end in
  let o := fst (computeOutcome (Profile.candy profile) (rng env)) in
  trickOrTreatDraw env user st =
  (Cmd.Done
     (if onCooldown (Profile.lastUsed profile) (now env)
      then Blocked (Content (cooldownContent
                      (remainingTime (Profile.lastUsed profile) (now env))))
      else Ready {| Profile.candy := Profile.candy profile;
                    Profile.title := Profile.title profile;
                    Profile.inventory := Profile.inventory profile;
                    Profile.lastUsed := Profile.lastUsed profile;
                    Profile.username := Profile.username profile;
                    Profile.message := outMessage o |} o), st).
Proof.
  intros profile o. unfold trickOrTreatDraw, Cmd.bind.
  rewrite getUserProfile_value. fold profile.
  assert (Hor : JS.or_num (Profile.lastUsed profile) 0 = Profile.lastUsed profile).
  { unfold JS.or_num. destruct (Z.eqb_spec (Profile.lastUsed profile) 0); lia. }
  rewrite Hor.
  destruct (onCooldown (Profile.lastUsed profile) (now env)); reflexivity.
Qed.


(** The transaction writes the invoking user's document and no other. *)
Lemma trickOrTreatCommit_store (env : Env) (user : User.t) (o : Outcome)
    (st : gmap string Profile.t) :
  snd (trickOrTreatCommit env user o st) =
  if commitFails env then st
  else <[User.id user :=
           commitUpdate env user (candyChange o) (st !! User.id user)]> st.
Proof.
  unfold trickOrTreatCommit, Cmd.bind, Cmd.runTransaction.
  destruct (commitFails env); reflexivity.
Qed.


(** ** Inventory display *)

(** The ids the catalog knows. *)
Lemma findItem_known (id : string) :
  findItem id <> None <-> In id (map ShopItem.id SHOP_ITEMS).
Proof.
  unfold findItem, SHOP_ITEMS. cbn [List.find ShopItem.id map].
  destruct (String.eqb_spec "hat" id) as [<-|H1]; [split; [intros _; simpl; tauto | discriminate]|].
  destruct (String.eqb_spec "mask" id) as [<-|H2]; [split; [intros _; simpl; tauto | discriminate]|].
  destruct (String.eqb_spec "ghost" id) as [<-|H3]; [split; [intros _; simpl; tauto | discriminate]|].
  split; [intros H; congruence | simpl; intros [|[|[|[]]]]; contradiction].
Qed.

(** Mapping [itemName] over ids of which one is unknown throws. *)
Lemma mapM_itemName_unknown (ids : list string) (id : string)
    (st : gmap string Profile.t) :
  In id ids -> findItem id = None ->
  Cmd.mapM itemName ids st = (Cmd.Throw Cmd.TypeError, st).
Proof.
  intros Hin Hnone. induction ids as [|x rest IH]; [contradiction|].
  simpl. unfold Cmd.bind at 1. unfold itemName at 1.
  destruct (findItem x) eqn:Hx.
  - destruct Hin as [->|Hin]; [congruence|].
    unfold Cmd.ret at 1. unfold Cmd.bind at 1. rewrite (IH Hin). reflexivity.
  - reflexivity.
Qed.

(** C10: when the stored inventory holds an id that is not in the
    catalog, the lookup of that id finds nothing, reading the item's
    name throws, and the inventory command ends in the failure notice
    instead of the inventory display. *)
Theorem inventory_unknown_item (env : Env) (user : User.t)
    (st : gmap string Profile.t) (profile : Profile.t) (id : string) :
  readFails env = false ->
  st !! User.id user = Some profile ->
  In id (Profile.inventory profile) ->
  ~ In id (map ShopItem.id SHOP_ITEMS) ->
  findItem id = None /\
  itemName id st = (Cmd.Throw Cmd.TypeError, st) /\
  handleInventory env user st = (Cmd.Throw Cmd.TypeError, st) /\
  interactionCreate env "inventory" user st
    = (Some (Content ghostlyError), st).
Proof.
  intros Hread Hst Hin Hunknown.
  assert (Hnone : findItem id = None).
  { destruct (findItem id) eqn:Hf; [|reflexivity].
    exfalso. apply Hunknown. apply findItem_known. congruence. }
  assert (Hinv : handleInventory env user st = (Cmd.Throw Cmd.TypeError, st)).
  { unfold handleInventory. unfold Cmd.bind at 1.
    rewrite getUserProfile_value, Hread, Hst.
    unfold Cmd.bind at 1. unfold itemsOwned.
    destruct (Profile.inventory profile) as [|x rest] eqn:Hinvt; [contradiction|].
    replace (0 <? Z.of_nat (length (x :: rest))) with true
      by (symmetry; apply Z.ltb_lt; simpl length; lia).
    unfold Cmd.bind at 1.
    rewrite (mapM_itemName_unknown (x :: rest) id st Hin Hnone). reflexivity. }
  split; [exact Hnone|].
  split; [unfold itemName; rewrite Hnone; reflexivity|].
  split; [exact Hinv|].
  unfold interactionCreate, handlerOf. simpl String.eqb. cbv iota.
  rewrite Hinv. reflexivity.
Qed.

Lemma inventory_unknown_item_witness :
  readFails trickEnv = false /\
  ({[ "1001" := katProfile 12 ["hat"; "broom"] ]} : gmap string Profile.t)
    !! User.id kat = Some (katProfile 12 ["hat"; "broom"]) /\
  In "broom" (Profile.inventory (katProfile 12 ["hat"; "broom"])) /\
  ~ In "broom" (map ShopItem.id SHOP_ITEMS) /\
  interactionCreate trickEnv "inventory" kat
    {[ "1001" := katProfile 12 ["hat"; "broom"] ]}
    = (Some (Content ghostlyError),
       {[ "1001" := katProfile 12 ["hat"; "broom"] ]}).
Proof.
  assert (H1 : readFails trickEnv = false) by reflexivity.
  assert (H2 : ({[ "1001" := katProfile 12 ["hat"; "broom"] ]}
                  : gmap string Profile.t) !! User.id kat
               = Some (katProfile 12 ["hat"; "broom"])) by reflexivity.
  assert (H3 : In "broom" (Profile.inventory (katProfile 12 ["hat"; "broom"])))
    by (simpl; tauto).
  assert (H4 : ~ In "broom" (map ShopItem.id SHOP_ITEMS)).
  { simpl. intros [H|[H|[H|[]]]]; discriminate H. }
  split; [exact H1|]. split; [exact H2|]. split; [exact H3|]. split; [exact H4|].
  apply (inventory_unknown_item trickEnv kat _ _ "broom" H1 H2 H3 H4).
Defined.

(** With every id in the catalog the display is produced. *)
Example inventory_known_items :
  exists e,
    interactionCreate trickEnv "inventory" kat
      {[ "1001" := katProfile 12 ["hat"; "ghost"] ]}
    = (Some (Embeds e), {[ "1001" := katProfile 12 ["hat"; "ghost"] ]}) /\
    Embed.fields e =
      [ Embed.mkField "Candy Count" "12 üç¨" true;
        Embed.mkField "Items Owned" "Witch's Hat, Ghostly Shroud" false ].
Proof. eexists. split; reflexivity. Qed.

(** ** A rejected profile read *)

(** C8 as stated does not hold: with the profile read rejected, the
    shop command answers a user who has 500 candy and owns the hat
    exactly as it answers a newcomer. *)
Lemma read_failure_not_reported : ~ reportsReadFailure.
Proof.
  intros H.
  apply (H "shop" readFailEnv kat {[ "1001" := katProfile 500 ["hat"] ]}).
  - simpl. tauto.
  - reflexivity.
  - vm_compute. reflexivity.
Qed.

(** C8, amended: when the profile read is rejected, [getUserProfile]
    returns the fallback profile (candy 0, title [Error Status], empty
    inventory, lastUsed 0) and the command goes on with it: the shop
    replies as to a newcomer, the inventory shows the title
    [Error Status] with 0 candy and no items, and [trickortreat] takes
    the cooldown gate with lastUsed 0 and draws for a balance of 0. *)
Theorem read_failure_fallback (env : Env) (user : User.t)
    (st : gmap string Profile.t) :
  readFails env = true ->
  getUserProfile (readFails env) (User.id user) st = (Cmd.Done errorProfile, st) /\
  errorProfile =
    {| Profile.candy := 0; Profile.title := "Error Status";
       Profile.inventory := []; Profile.lastUsed := 0;
       Profile.username := None; Profile.message := None |} /\
  interactionCreate env "shop" user st
    = (replyToNewcomer env "shop" user st, st) /\
  interactionCreate env "inventory" user st =
    (Some (Embeds
       {| Embed.color := "#A020F0";
          Embed.title := "üëª " +:+ User.username user +:+ "'s Inventory";
          Embed.description := Some "**Current Title:** `Error Status`";
          Embed.thumbnail := Some (User.displayAvatarURL user);
          Embed.fields :=
            [ Embed.mkField "Candy Count" "0 üç¨" true;
              Embed.mkField "Items Owned" "None" false ];
          Embed.footer := "Spend your candy in the /shop!" |}), st) /\
  trickOrTreatDraw env user st =
    (Cmd.Done
       (if onCooldown 0 (now env)
        then Blocked (Content (cooldownContent (remainingTime 0 (now env))))
        else Ready
               {| Profile.candy := 0; Profile.title := "Error Status";
                  Profile.inventory := []; Profile.lastUsed := 0;
                  Profile.username := None;
                  Profile.message := outMessage (fst (computeOutcome 0 (rng env))) |}
               (fst (computeOutcome 0 (rng env)))), st).
Proof.
  intros Hfail.
  split; [rewrite getUserProfile_value, Hfail; reflexivity|].
  split; [reflexivity|].
  split.
  { unfold replyToNewcomer, interactionCreate, handlerOf.
    simpl String.eqb. cbv iota. rewrite !handleShop_value.
    cbn [readFails]. rewrite Hfail, lookup_delete_eq. reflexivity. }
  split.
  { unfold interactionCreate, handlerOf. simpl String.eqb. cbv iota.
    unfold handleInventory. unfold Cmd.bind at 1.
    rewrite getUserProfile_value, Hfail. reflexivity. }
  pose proof (trickOrTreatDraw_value env user st) as H.
  cbv zeta in H. rewrite Hfail in H. exact H.
Qed.

Lemma read_failure_fallback_witness :
  readFails readFailEnv = true /\
  interactionCreate readFailEnv "shop" kat {[ "1001" := katProfile 500 ["hat"] ]}
    = (replyToNewcomer readFailEnv "shop" kat {[ "1001" := katProfile 500 ["hat"] ]},
       {[ "1001" := katProfile 500 ["hat"] ]}).
Proof.
  split; [reflexivity|].
  pose proof (read_failure_fallback readFailEnv kat
                {[ "1001" := katProfile 500 ["hat"] ]} eq_refl) as H.
  destruct H as (_ & _ & H & _). exact H.
Defined.

(** With the read rejected, a user whose last reward was a second ago
    gets past the cooldown gate. *)
Example read_failure_skips_cooldown :
  exists reply p o,
    fst (trickOrTreatDraw trickEnvLater kat
           {[ "1001" := commitUpdate trickEnv kat 4 (Some (katProfile 3 [])) ]})
      = Cmd.Done (Blocked reply) /\
    fst (trickOrTreatDraw
           {| now := now trickEnvLater; rng := rng trickEnvLater;
              readFails := true; commitFails := false; topQuery := None |}
           kat
           {[ "1001" := commitUpdate trickEnv kat 4 (Some (katProfile 3 [])) ]})
      = Cmd.Done (Ready p o).
Proof. do 3 eexists. split; vm_compute; reflexivity. Qed.

(** ** The persisted balance *)

(** The change of an outcome drawn for a balance [c >= 0] never
    exceeds that balance. *)
Lemma candyChange_lower (c : Z) (r : Random.Rng) :
  Random.well_formed r -> 0 <= c ->
  0 <= c + candyChange (fst (computeOutcome c r)).
Proof.
  intros Hr Hc.
  pose proof (floor_mul_range (r 2%nat) 5 2 (Hr 2%nat) ltac:(lia) ltac:(simpl; lia)).
  pose proof (floor_mul_range (r 2%nat) 10 3 (Hr 2%nat) ltac:(lia) ltac:(simpl; lia)).
  pose proof (floor_mul_range (r 2%nat) 20 4 (Hr 2%nat) ltac:(lia) ltac:(simpl; lia)).
  destruct (Z.lt_ge_cases (r 0%nat) Float64.lit_0_10) as [Ht|Ht].
  - rewrite computeOutcome_trick by assumption. simpl.
    apply trickChange_floor. exact Hc.
  - destruct (Z.lt_ge_cases (r 1%nat) Float64.lit_0_75) as [Hc1|Hc1].
    + rewrite computeOutcome_common by assumption. simpl. lia.
    + destruct (Z.lt_ge_cases (r 1%nat) Float64.lit_0_95) as [Hj|Hj].
      * rewrite computeOutcome_rare by (try split; assumption). simpl. lia.
      * rewrite computeOutcome_jackpot by assumption. simpl. lia.
Qed.

(** An outcome drawn for a balance of 0 takes nothing. *)
Lemma candyChange_of_zero (r : Random.Rng) :
  Random.well_formed r -> 0 <= candyChange (fst (computeOutcome 0 r)).
Proof. intros Hr. pose proof (candyChange_lower 0 r Hr ltac:(lia)). lia. Qed.

(** One [trickortreat] command that runs from its read to its commit
    with no other command in between keeps every balance at 0 or above. *)
Lemma sequential_balance_nonneg (env : Env) (user : User.t)
    (st : gmap string Profile.t) :
  Random.well_formed (rng env) ->
  (forall uid p, st !! uid = Some p -> 0 <= Profile.candy p) ->
  forall uid p,
    snd (handleTrickOrTreat env user st) !! uid = Some p ->
    0 <= Profile.candy p.
Proof.
  intros Hr Hst uid p.
  unfold handleTrickOrTreat, Cmd.bind.
  pose proof (trickOrTreatDraw_value env user st) as Hd. cbv zeta in Hd.
  rewrite Hd. clear Hd.
  set (profile := if readFails env then errorProfile
                  else match st !! User.id user with
                       | Some data => data
                       | None => defaultProfile
                       end).
  destruct (onCooldown (Profile.lastUsed profile) (now env)); [apply Hst|].
  unfold trickOrTreatResume.
  rewrite trickOrTreatCommit_store.
  destruct (commitFails env); [apply Hst|].
  destruct (decide (uid = User.id user)) as [->|Hne].
  - rewrite lookup_insert_eq. intros [= <-]. unfold commitUpdate. simpl.
    set (cur := match st !! User.id user with
                | Some data => data
                | None => defaultProfile
                end).
    assert (Hcur : 0 <= Profile.candy cur).
    { subst cur. destruct (st !! User.id user) eqn:E; [eapply Hst; exact E|simpl; lia]. }
    assert (Hor : JS.or_num (Profile.candy cur) 0 = Profile.candy cur).
    { unfold JS.or_num. destruct (Z.eqb_spec (Profile.candy cur) 0); lia. }
    rewrite Hor. subst profile.
    destruct (readFails env).
    + pose proof (candyChange_of_zero (rng env) Hr). simpl. lia.
    + fold cur. apply candyChange_lower; assumption.
  - rewrite lookup_insert_ne by congruence. apply Hst.
Qed.

(** C1 at the failing input: kat has 3 candy; two [trickortreat]
    commands of kat are in flight at once, each draws a trick of
    magnitude 5 and clamps it to the 3 candy it read; the first commits
    a balance of 0, the second reads that 0 inside its transaction and
    commits -3.  So the balance read inside the transaction does not
    bound the deduction, and a negative balance is persisted. *)
Theorem concurrent_tricks_overdraw :
  Random.well_formed (rng trickEnv) /\
  Random.well_formed (rng trickEnvLater) /\
  candyChange (fst (computeOutcome 3 (rng trickEnv))) = -3 /\
  snd (handleTrickOrTreat trickEnv kat {[ "1001" := katProfile 3 [] ]})
    !! "1001"
    = Some {| Profile.candy := 0;
              Profile.title := "New Trick-or-Treater";
              Profile.inventory := [];
              Profile.lastUsed := 1700000000000;
              Profile.username := Some "kat";
              Profile.message := None |} /\
  snd (twoInFlight trickEnv trickEnvLater kat kat {[ "1001" := katProfile 3 [] ]})
    !! "1001"
    = Some {| Profile.candy := -3;
              Profile.title := "New Trick-or-Treater";
              Profile.inventory := [];
              Profile.lastUsed := 1700000001000;
              Profile.username := Some "kat";
              Profile.message := None |} /\
  ~ commitsNonNegative.
Proof.
  assert (H1 : Random.well_formed (rng trickEnv))
    by (apply of_list_well_formed; vm_compute; reflexivity).
  assert (H2 : Random.well_formed (rng trickEnvLater))
    by (apply of_list_well_formed; vm_compute; reflexivity).
  assert (H5 : snd (twoInFlight trickEnv trickEnvLater kat kat
                      {[ "1001" := katProfile 3 [] ]}) !! "1001"
               = Some {| Profile.candy := -3;
                         Profile.title := "New Trick-or-Treater";
                         Profile.inventory := [];
                         Profile.lastUsed := 1700000001000;
                         Profile.username := Some "kat";
                         Profile.message := None |})
    by (vm_compute; reflexivity).
  split; [exact H1|]. split; [exact H2|].
  split; [vm_compute; reflexivity|].
  split; [vm_compute; reflexivity|].
  split; [exact H5|].
  intros Hclaim.
  specialize (Hclaim trickEnv trickEnvLater kat {[ "1001" := katProfile 3 [] ]} H1 H2).
  assert (Hst : forall uid p,
            ({[ "1001" := katProfile 3 [] ]} : gmap string Profile.t) !! uid = Some p ->
            0 <= Profile.candy p).
  { intros uid p Hl. apply lookup_singleton_Some in Hl as [_ <-]. simpl. lia. }
  specialize (Hclaim Hst "1001" _ H5). simpl in Hclaim. lia.
Qed.

(** * Further properties of the handlers *)

(** The whole of a [trickortreat] command in closed form: blocked,
    rejected by the store, or committed. *)
Lemma interactionCreate_trickortreat (env : Env) (user : User.t)
    (st : gmap string Profile.t) :
  interactionCreate env "trickortreat" user st =
  if onCooldown (Profile.lastUsed (profileRead env user st)) (now env)
  then (Some (Content (cooldownContent
                (remainingTime (Profile.lastUsed (profileRead env user st))
                   (now env)))), st)
  else if commitFails env then (Some (Content ghostlyError), st)
  else (Some (Embeds (rewardEmbed (outcomeDrawn env user st)
                        (committed env user st))),
        <[User.id user := committed env user st]> st).
Proof.
  unfold interactionCreate, handlerOf. simpl String.eqb. cbv iota.
  unfold handleTrickOrTreat. unfold Cmd.bind at 1.
  pose proof (trickOrTreatDraw_value env user st) as Hd. cbv zeta in Hd.
  rewrite Hd. clear Hd. fold (profileRead env user st).
  destruct (onCooldown (Profile.lastUsed (profileRead env user st)) (now env));
    [reflexivity|].
  unfold trickOrTreatResume, trickOrTreatCommit, Cmd.bind, Cmd.runTransaction.
  destruct (commitFails env); reflexivity.
Qed.

(** ** Consecutive reward actions *)

(** A committed [trickortreat] leaves the document it set under the
    user's id. *)
Lemma committed_store (env : Env) (user : User.t) (st : gmap string Profile.t) :
  onCooldown (Profile.lastUsed (profileRead env user st)) (now env) = false ->
  commitFails env = false ->
  interactionCreate env "trickortreat" user st =
  (Some (Embeds (rewardEmbed (outcomeDrawn env user st) (committed env user st))),
   <[User.id user := committed env user st]> st).
Proof.
  intros Hgate Hcommit.
  rewrite interactionCreate_trickortreat, Hgate, Hcommit. reflexivity.
Qed.

(** X1: after a reward action of a user has been committed at time
    [t], the next [trickortreat] of that user whose profile read
    succeeds is blocked at every time before [t + 2 hours], with the
    remaining time [t + 2 hours - now] in the reply and no write, and
    is let through to the draw from [t + 2 hours] on. *)
Theorem cooldown_after_reward (env1 env2 : Env) (user : User.t)
    (st : gmap string Profile.t) :
  onCooldown (Profile.lastUsed (profileRead env1 user st)) (now env1) = false ->
  commitFails env1 = false ->
  readFails env2 = false ->
  let st1 := snd (interactionCreate env1 "trickortreat" user st) in
  (now env2 < now env1 + COOLDOWN_TIME ->
     interactionCreate env2 "trickortreat" user st1 =
     (Some (Content (cooldownContent (now env1 + COOLDOWN_TIME - now env2))),
      st1)) /\
  (now env1 + COOLDOWN_TIME <= now env2 ->
     exists p o, fst (trickOrTreatDraw env2 user st1) = Cmd.Done (Ready p o)).
Proof.
  intros Hgate Hcommit Hread st1.
  assert (Hst1 : st1 = <[User.id user := committed env1 user st]> st).
  { subst st1. rewrite committed_store by assumption. reflexivity. }
  assert (Hp : profileRead env2 user st1 = committed env1 user st).
  { unfold profileRead. rewrite Hread, Hst1, lookup_insert_eq. reflexivity. }
  assert (Hlast : Profile.lastUsed (profileRead env2 user st1) = now env1).
  { rewrite Hp. reflexivity. }
  split.
  - intros Hlt. rewrite interactionCreate_trickortreat, Hlast.
    unfold onCooldown, remainingTime.
    destruct (Z.gtb_spec (now env1 + COOLDOWN_TIME) (now env2)); [reflexivity|lia].
  - intros Hge.
    pose proof (trickOrTreatDraw_value env2 user st1) as Hd. cbv zeta in Hd.
    fold (profileRead env2 user st1) in Hd. rewrite Hd, Hlast.
    unfold onCooldown.
    destruct (Z.gtb_spec (now env1 + COOLDOWN_TIME) (now env2)); [lia|].
    simpl. eauto.
Qed.

Lemma cooldown_after_reward_witness :
  onCooldown (Profile.lastUsed (profileRead trickEnv kat ∅)) (now trickEnv) = false /\
  commitFails trickEnv = false /\
  readFails trickEnvLater = false /\
  now trickEnvLater < now trickEnv + COOLDOWN_TIME /\
  fst (interactionCreate trickEnvLater "trickortreat" kat
         (snd (interactionCreate trickEnv "trickortreat" kat ∅)))
  = Some (Content (cooldownContent
            (now trickEnv + COOLDOWN_TIME - now trickEnvLater))).
Proof.
  assert (H1 : onCooldown (Profile.lastUsed (profileRead trickEnv kat ∅))
                 (now trickEnv) = false) by reflexivity.
  assert (H2 : commitFails trickEnv = false) by reflexivity.
  assert (H3 : readFails trickEnvLater = false) by reflexivity.
  assert (H4 : now trickEnvLater < now trickEnv + COOLDOWN_TIME) by reflexivity.
  split; [exact H1|]. split; [exact H2|]. split; [exact H3|]. split; [exact H4|].
  pose proof (cooldown_after_reward trickEnv trickEnvLater kat ∅ H1 H2 H3) as H.
  cbv zeta in H. destruct H as [H _]. rewrite (H H4). reflexivity.
Defined.



(** ** The inventory display and the failure notice *)








(** ** The wait shown to a blocked user *)

(** Hours and minutes of the wait as integer quotients. *)
Lemma wait_quotients (remaining : Z) :
  0 < remaining < 2 ^ 53 ->
  remainingHours remaining = remaining / 3600000 /\
  remainingMinutes remaining = - ((- (remaining mod 3600000)) / 60000).
Proof.
  intros Hpos.
  assert (H53 : 2 ^ 53 = 9007199254740992) by reflexivity.
  pose proof (Z.mod_pos_bound remaining 3600000 ltac:(lia)) as Hr.
  split.
  - unfold remainingHours. change (1000 * 60 * 60) with 3600000.
    apply div_int_floor; lia.
  - unfold remainingMinutes, JS.rem.
    change (1000 * 60 * 60) with 3600000. change (1000 * 60) with 60000.
    rewrite Z.rem_mod_nonneg by lia.
    apply div_int_ceil; lia.
Qed.

(** X5: the wait shown never understates the remaining time and
    overstates it by less than a minute; the minutes component ranges
    over 0..60: it is 0 exactly when the remaining time is a whole
    number of hours, and 60 exactly when less than a minute is missing
    to the next whole hour. *)
Theorem wait_never_understates (remaining : Z) :
  0 < remaining < 2 ^ 53 ->
  let h := remainingHours remaining in
  let m := remainingMinutes remaining in
  0 <= h /\ 0 <= m <= 60 /\
  remaining <= 3600000 * h + 60000 * m < remaining + 60000 /\
  (m = 0 <-> remaining mod 3600000 = 0) /\
  (m = 60 <-> 3540000 < remaining mod 3600000).
Proof.
  intros Hpos h m. subst h m.
  destruct (wait_quotients remaining Hpos) as [-> ->].
  pose proof (Z.div_mod remaining 3600000 ltac:(lia)) as Hd.
  pose proof (Z.mod_pos_bound remaining 3600000 ltac:(lia)) as Hr.
  pose proof (Z.div_mod (- (remaining mod 3600000)) 60000 ltac:(lia)) as Hd'.
  pose proof (Z.mod_pos_bound (- (remaining mod 3600000)) 60000 ltac:(lia)) as Hs.
  assert (0 <= remaining / 3600000) by (apply Z.div_pos; lia).
  repeat split; lia.
Qed.

Lemma wait_never_understates_witness :
  0 < 3599999 < 2 ^ 53 /\
  0 <= remainingMinutes 3599999 <= 60 /\
  (remainingMinutes 3599999 = 60 <-> 3540000 < 3599999 mod 3600000).
Proof.
  assert (Hin : 0 < 3599999 < 2 ^ 53) by (split; reflexivity).
  split; [exact Hin|].
  pose proof (wait_never_understates 3599999 Hin) as H. cbv zeta in H.
  destruct H as (_ & H1 & _ & _ & H2). split; [exact H1|exact H2].
Defined.

(** One second short of an hour is shown as 0h 60m, a whole hour as
    1h 0m. *)
Example wait_edge_texts :
  waitText 3599999 = "0h 60m" /\ waitText 3600000 = "1h 0m" /\
  waitText 7200000 = "2h 0m".
Proof. repeat split; vm_compute; reflexivity. Qed.

(** X6: when the [lastUsed] read is not later than the clock (and
    both are timestamps below 2^53), a blocked [trickortreat] shows a
    wait of at most two hours: the hours component is 0, 1 or 2, and it
    is 2 only for a command at the very time of the last reward, shown
    with 0 minutes. *)
Theorem wait_at_most_two_hours (env : Env) (user : User.t)
    (st : gmap string Profile.t) :
  let lastUsed := Profile.lastUsed (profileRead env user st) in
  0 <= lastUsed <= now env -> now env < 2 ^ 53 ->
  onCooldown lastUsed (now env) = true ->
  let remaining := remainingTime lastUsed (now env) in
  fst (interactionCreate env "trickortreat" user st)
    = Some (Content (cooldownContent remaining)) /\
  0 < remaining <= 7200000 /\
  0 <= remainingHours remaining <= 2 /\
  (remainingHours remaining = 2 ->
     now env = lastUsed /\ remainingMinutes remaining = 0).
Proof.
  intros lastUsed Hle Hnow Hgate remaining.
  assert (H53 : 2 ^ 53 = 9007199254740992) by reflexivity.
  assert (Hrem : 0 < remaining <= 7200000).
  { subst remaining. unfold onCooldown in Hgate. unfold remainingTime.
    apply Z.gtb_lt in Hgate. change COOLDOWN_TIME with 7200000 in *. lia. }
  split.
  { rewrite interactionCreate_trickortreat. fold lastUsed. rewrite Hgate.
    reflexivity. }
  split; [exact Hrem|].
  destruct (wait_quotients remaining ltac:(lia)) as [-> ->].
  pose proof (Z.div_mod remaining 3600000 ltac:(lia)) as Hd.
  pose proof (Z.mod_pos_bound remaining 3600000 ltac:(lia)) as Hr.
  pose proof (Z.div_mod (- (remaining mod 3600000)) 60000 ltac:(lia)) as Hd'.
  pose proof (Z.mod_pos_bound (- (remaining mod 3600000)) 60000 ltac:(lia)) as Hs.
  assert (0 <= remaining / 3600000) by (apply Z.div_pos; lia).
  split; [lia|].
  intros H2.
  assert (remaining = 7200000) by lia.
  split; [|lia].
  subst remaining. unfold remainingTime in *.
  change COOLDOWN_TIME with 7200000 in *. lia.
Qed.

Lemma wait_at_most_two_hours_witness :
  0 <= Profile.lastUsed
         (profileRead trickEnvLater kat
            {[ "1001" := commitUpdate trickEnv kat 4 None ]})
    <= now trickEnvLater /\
  now trickEnvLater < 2 ^ 53 /\
  onCooldown
    (Profile.lastUsed
       (profileRead trickEnvLater kat
          {[ "1001" := commitUpdate trickEnv kat 4 None ]}))
    (now trickEnvLater) = true /\
  fst (interactionCreate trickEnvLater "trickortreat" kat
         {[ "1001" := commitUpdate trickEnv kat 4 None ]})
    = Some (Content (cooldownContent 7199000)).
Proof.
  assert (H1 : 0 <= Profile.lastUsed
                      (profileRead trickEnvLater kat
                         {[ "1001" := commitUpdate trickEnv kat 4 None ]})
               <= now trickEnvLater) by (split; vm_compute; discriminate).
  assert (H2 : now trickEnvLater < 2 ^ 53) by reflexivity.
  assert (H3 : onCooldown
                 (Profile.lastUsed
                    (profileRead trickEnvLater kat
                       {[ "1001" := commitUpdate trickEnv kat 4 None ]}))
                 (now trickEnvLater) = true) by reflexivity.
  split; [exact H1|]. split; [exact H2|]. split; [exact H3|].
  pose proof (wait_at_most_two_hours trickEnvLater kat
                {[ "1001" := commitUpdate trickEnv kat 4 None ]} H1 H2 H3) as H.
  cbv zeta in H. destruct H as (H & _). exact H.
Defined.

(** ** More on the reward engine *)

(** The line of [tricks] that the third draw selects. *)
Lemma trick_message_line (c : Z) (d : Z) :
  Float64.is_draw d = true ->
  exists line,
    In line trickLines /\
    index (tricks c) (Float64.floor_mul d 3)
      = Some (line +:+ JS.string_of_Z (Z.abs c) +:+ "** candy.").
Proof.
  intros Hd.
  pose proof (floor_mul_range d 3 1 Hd ltac:(lia) ltac:(simpl; lia)) as Hi.
  assert (Hcases : Float64.floor_mul d 3 = 0 \/ Float64.floor_mul d 3 = 1 \/
                   Float64.floor_mul d 3 = 2) by lia.
  unfold index. destruct Hcases as [-> | [-> | ->]]; simpl.
  - eexists; split; [left; reflexivity | reflexivity].
  - eexists; split; [right; left; reflexivity | reflexivity].
  - eexists; split; [right; right; left; reflexivity | reflexivity].
Qed.

(** X7: a trick drawn for a balance that is 0 or negative does not
    deduct: its change is [-currentCandy], which is 0 for an empty
    balance and a gain for a negative one, so that the balance it was
    drawn for comes out at exactly 0; the message still reports that
    amount as candy lost. *)
Theorem trick_without_deduction (currentCandy : Z) (r : Random.Rng) :
  Random.well_formed r ->
  r 0%nat < Float64.lit_0_10 ->
  currentCandy <= 0 ->
  let o := fst (computeOutcome currentCandy r) in
  candyChange o = - currentCandy /\
  0 <= candyChange o /\
  currentCandy + candyChange o = 0 /\
  exists line,
    In line trickLines /\
    outMessage o =
      Some (line +:+ JS.string_of_Z (- currentCandy) +:+ "** candy.").
Proof.
  intros Hr Htrick Hc o. subst o.
  rewrite computeOutcome_trick by assumption. cbn [candyChange outMessage].
  pose proof (floor_mul_range (r 1%nat) 6 2 (Hr 1%nat) ltac:(lia) ltac:(simpl; lia)) as Hm.
  assert (Hchange : trickChange currentCandy (r 1%nat) = - currentCandy).
  { rewrite trickChange_eq.
    destruct (Z.ltb_spec (currentCandy + - (Float64.floor_mul (r 1%nat) 6 + 1)) 0); lia. }
  rewrite Hchange.
  split; [reflexivity|]. split; [lia|]. split; [lia|].
  destruct (trick_message_line (- currentCandy) (r 2%nat) (Hr 2%nat))
    as (line & Hin & Hmsg).
  exists line. split; [exact Hin|].
  rewrite Hmsg. rewrite Z.abs_eq by lia. reflexivity.
Qed.

Lemma trick_without_deduction_witness :
  Random.well_formed (rng trickEnv) /\
  rng trickEnv 0%nat < Float64.lit_0_10 /\
  -3 <= 0 /\
  candyChange (fst (computeOutcome (-3) (rng trickEnv))) = 3.
Proof.
  assert (H1 : Random.well_formed (rng trickEnv))
    by (apply of_list_well_formed; vm_compute; reflexivity).
  assert (H2 : rng trickEnv 0%nat < Float64.lit_0_10) by reflexivity.
  assert (H3 : -3 <= 0) by lia.
  split; [exact H1|]. split; [exact H2|]. split; [exact H3|].
  pose proof (trick_without_deduction (-3) (rng trickEnv) H1 H2 H3) as H.
  cbv zeta in H. destruct H as (H & _). exact H.
Defined.

(** X8: whatever is drawn for a balance of at least 0, the change lies
    between -6 and 35 and never exceeds the balance downwards; a trick
    on a balance of at least 1 takes at least 1 candy, a treat gives at
    least 1, and there is always a message. *)
Theorem outcome_bounds (currentCandy : Z) (r : Random.Rng) :
  Random.well_formed r ->
  0 <= currentCandy ->
  let o := fst (computeOutcome currentCandy r) in
  -6 <= candyChange o <= 35 /\
  0 <= currentCandy + candyChange o /\
  (r 0%nat < Float64.lit_0_10 ->
     - Z.min 6 currentCandy <= candyChange o <= 0 /\
     (1 <= currentCandy -> candyChange o <= -1)) /\
  (Float64.lit_0_10 <= r 0%nat -> 1 <= candyChange o) /\
  outMessage o <> None.
Proof.
  intros Hr Hc o. subst o.
  pose proof (floor_mul_range (r 1%nat) 6 2 (Hr 1%nat) ltac:(lia) ltac:(simpl; lia)) as H6.
  pose proof (floor_mul_range (r 2%nat) 5 2 (Hr 2%nat) ltac:(lia) ltac:(simpl; lia)) as H5.
  pose proof (floor_mul_range (r 2%nat) 10 3 (Hr 2%nat) ltac:(lia) ltac:(simpl; lia)) as H10.
  pose proof (floor_mul_range (r 2%nat) 20 4 (Hr 2%nat) ltac:(lia) ltac:(simpl; lia)) as H20.
  destruct (Z.lt_ge_cases (r 0%nat) Float64.lit_0_10) as [Ht|Ht].
  - rewrite computeOutcome_trick by assumption. cbn [candyChange outMessage].
    assert (Hch : - Z.min 6 currentCandy <= trickChange currentCandy (r 1%nat) <= 0 /\
                  (1 <= currentCandy -> trickChange currentCandy (r 1%nat) <= -1) /\
                  0 <= currentCandy + trickChange currentCandy (r 1%nat)).
    { rewrite trickChange_eq.
      destruct (Z.ltb_spec (currentCandy + - (Float64.floor_mul (r 1%nat) 6 + 1)) 0); lia. }
    split; [lia|]. split; [lia|].
    split; [intros _; split; [lia|apply Hch]|].
    split; [lia|].
    destruct (trick_message_line (trickChange currentCandy (r 1%nat)) (r 2%nat) (Hr 2%nat))
      as (line & _ & ->). discriminate.
  - destruct (Z.lt_ge_cases (r 1%nat) Float64.lit_0_75) as [Hc1|Hc1].
    + rewrite computeOutcome_common by assumption. cbn [candyChange outMessage].
      repeat split; try lia; discriminate.
    + destruct (Z.lt_ge_cases (r 1%nat) Float64.lit_0_95) as [Hj|Hj].
      * rewrite computeOutcome_rare by (try split; assumption).
        cbn [candyChange outMessage]. repeat split; try lia; discriminate.
      * rewrite computeOutcome_jackpot by assumption.
        cbn [candyChange outMessage]. repeat split; try lia; discriminate.
Qed.

Lemma outcome_bounds_witness :
  Random.well_formed (treatRng Float64.lit_0_95 0) /\
  0 <= 7 /\
  -6 <= candyChange (fst (computeOutcome 7 (treatRng Float64.lit_0_95 0))) <= 35.
Proof.
  assert (H1 : Random.well_formed (treatRng Float64.lit_0_95 0))
    by (apply of_list_well_formed; vm_compute; reflexivity).
  assert (H2 : 0 <= 7) by lia.
  split; [exact H1|]. split; [exact H2|].
  pose proof (outcome_bounds 7 (treatRng Float64.lit_0_95 0) H1 H2) as H.
  cbv zeta in H. destruct H as (H & _). exact H.
Defined.

(** ** Runs of several commands *)

(** Only [trickortreat] can change the store. *)
Lemma other_commands_store (env : Env) (commandName : string) (user : User.t)
    (st : gmap string Profile.t) :
  commandName <> "trickortreat" ->
  snd (interactionCreate env commandName user st) = st.
Proof.
  intros Hc. unfold interactionCreate, handlerOf.
  destruct (String.eqb_spec commandName "trickortreat") as [->|_]; [contradiction|].
  destruct (String.eqb commandName "inventory").
  { pose proof (handleInventory_readOnly env user st) as H.
    destruct (handleInventory env user st) as [[?|?] st']; exact H. }
  destruct (String.eqb commandName "shop").
  { rewrite handleShop_value. reflexivity. }
  destruct (String.eqb commandName "topspook").
  { pose proof (handleTopSpook_readOnly env st) as H.
    destruct (handleTopSpook env st) as [[?|?] st']; exact H. }
  reflexivity.
Qed.

(** The store a [trickortreat] command leaves is the store its handler
    leaves. *)
Lemma trickortreat_store (env : Env) (user : User.t)
    (st : gmap string Profile.t) :
  snd (interactionCreate env "trickortreat" user st)
    = snd (handleTrickOrTreat env user st).
Proof.
  unfold interactionCreate, handlerOf. simpl String.eqb. cbv iota.
  destruct (handleTrickOrTreat env user st) as [[?|?] st']; reflexivity.
Qed.

(** One command handled from its read to its reply keeps every balance
    at 0 or above. *)
Lemma command_keeps_balances (env : Env) (commandName : string) (user : User.t)
    (st : gmap string Profile.t) :
  Random.well_formed (rng env) ->
  balancesNonNegative st ->
  balancesNonNegative (snd (interactionCreate env commandName user st)).
Proof.
  intros Hr Hst.
  destruct (String.eqb_spec commandName "trickortreat") as [->|Hne].
  - rewrite trickortreat_store. intros uid p.
    apply sequential_balance_nonneg; assumption.
  - rewrite other_commands_store by assumption. exact Hst.
Qed.

(** X9: commands handled one after another, whatever their names,
    users, clocks, draws and store failures, never leave a negative
    balance in a store that had none; and every command gets its entry
    in the list of replies. *)
Theorem sequential_runs_keep_balances (invs : list Invocation)
    (st : gmap string Profile.t) :
  Forall (fun inv => Random.well_formed (rng (invEnv inv))) invs ->
  balancesNonNegative st ->
  balancesNonNegative (snd (runAll invs st)) /\
  length (fst (runAll invs st)) = length invs.
Proof.
  intros Hwf. revert st.
  induction Hwf as [|inv rest Hinv Hrest IH]; intros st Hst.
  - split; [exact Hst|reflexivity].
  - simpl.
    pose proof (command_keeps_balances (invEnv inv) (invCommand inv)
                  (invUser inv) st Hinv Hst) as Hstep.
    destruct (interactionCreate (invEnv inv) (invCommand inv) (invUser inv) st)
      as [reply st'].
    simpl in Hstep. specialize (IH st' Hstep).
    destruct (runAll rest st') as [replies st''].
    simpl in *. destruct IH as [IH1 IH2]. split; [exact IH1|].
    rewrite IH2. reflexivity.
Qed.

Lemma sequential_runs_keep_balances_witness :
  Forall (fun inv => Random.well_formed (rng (invEnv inv)))
    [ {| invEnv := trickEnv; invCommand := "trickortreat"; invUser := kat |};
      {| invEnv := trickEnvLater; invCommand := "shop"; invUser := kat |} ] /\
  balancesNonNegative {[ "1001" := katProfile 3 [] ]} /\
  balancesNonNegative
    (snd (runAll
       [ {| invEnv := trickEnv; invCommand := "trickortreat"; invUser := kat |};
         {| invEnv := trickEnvLater; invCommand := "shop"; invUser := kat |} ]
       {[ "1001" := katProfile 3 [] ]})).
Proof.
  assert (H1 : Forall (fun inv => Random.well_formed (rng (invEnv inv)))
    [ {| invEnv := trickEnv; invCommand := "trickortreat"; invUser := kat |};
      {| invEnv := trickEnvLater; invCommand := "shop"; invUser := kat |} ]).
  { repeat constructor; apply of_list_well_formed; vm_compute; reflexivity. }
  assert (H2 : balancesNonNegative {[ "1001" := katProfile 3 [] ]}).
  { intros uid p Hl. apply lookup_singleton_Some in Hl as [_ <-]. simpl. lia. }
  split; [exact H1|]. split; [exact H2|].
  exact (proj1 (sequential_runs_keep_balances _ _ H1 H2)).
Defined.

(** What the dispatcher makes of the rest of a [trickortreat] once the
    draw has returned. *)
Lemma settle_resume (env : Env) (user : User.t) (d : Drawn)
    (st : gmap string Profile.t) :
  settle (Cmd.bind (fun s => (Cmd.Done d, s)) (trickOrTreatResume env user)) st =
  match d with
  | Blocked reply => (reply, st)
  | Ready _ o =>
      if commitFails env then (Content ghostlyError, st)
      else (Embeds (rewardEmbed o
                      (commitUpdate env user (candyChange o) (st !! User.id user))),
            <[User.id user :=
                commitUpdate env user (candyChange o) (st !! User.id user)]> st)
  end.
Proof.
  unfold settle, Cmd.bind. destruct d as [reply|p o]; [reflexivity|].
  unfold trickOrTreatResume, trickOrTreatCommit, Cmd.bind, Cmd.runTransaction.
  destruct (commitFails env); reflexivity.
Qed.

(** X10: two [trickortreat] commands of different users that are in
    flight at once give the same two replies and leave the same store
    as when the second command starts after the first has replied. *)
Theorem different_users_do_not_interfere (env1 env2 : Env)
    (user1 user2 : User.t) (st : gmap string Profile.t) :
  User.id user1 <> User.id user2 ->
  runAll [ {| invEnv := env1; invCommand := "trickortreat"; invUser := user1 |};
           {| invEnv := env2; invCommand := "trickortreat"; invUser := user2 |} ]
         st
  = ([Some (fst (fst (overlapped env1 env2 user1 user2 st)));
      Some (snd (fst (overlapped env1 env2 user1 user2 st)))],
     snd (overlapped env1 env2 user1 user2 st)).
Proof.
  intros Hne.
  assert (Hread : forall doc,
            profileRead env2 user2 (<[User.id user1 := doc]> st)
            = profileRead env2 user2 st).
  { intros doc. unfold profileRead. rewrite lookup_insert_ne by exact Hne.
    reflexivity. }
  unfold overlapped.
  pose proof (trickOrTreatDraw_value env1 user1 st) as Hd1. cbv zeta in Hd1.
  fold (profileRead env1 user1 st) in Hd1. rewrite Hd1. clear Hd1.
  pose proof (trickOrTreatDraw_value env2 user2 st) as Hd2. cbv zeta in Hd2.
  fold (profileRead env2 user2 st) in Hd2. rewrite Hd2. clear Hd2.
  rewrite settle_resume.
  cbn [runAll invEnv invCommand invUser].
  rewrite (interactionCreate_trickortreat env1 user1 st).
  fold (outcomeDrawn env1 user1 st).
  destruct (onCooldown (Profile.lastUsed (profileRead env1 user1 st)) (now env1)).
  - rewrite settle_resume.
    rewrite (interactionCreate_trickortreat env2 user2 st).
    fold (outcomeDrawn env2 user2 st).
    destruct (onCooldown (Profile.lastUsed (profileRead env2 user2 st)) (now env2));
      [reflexivity|].
    destruct (commitFails env2); reflexivity.
  - destruct (commitFails env1).
    + rewrite settle_resume.
      rewrite (interactionCreate_trickortreat env2 user2 st).
      fold (outcomeDrawn env2 user2 st).
      destruct (onCooldown (Profile.lastUsed (profileRead env2 user2 st)) (now env2));
        [reflexivity|].
      destruct (commitFails env2); reflexivity.
    + rewrite settle_resume.
      fold (committed env1 user1 st).
      rewrite (interactionCreate_trickortreat env2 user2
                 (<[User.id user1 := committed env1 user1 st]> st)).
      unfold committed, outcomeDrawn. rewrite !Hread.
      destruct (onCooldown (Profile.lastUsed (profileRead env2 user2 st)) (now env2));
        [reflexivity|].
      destruct (commitFails env2); reflexivity.
Qed.

Lemma different_users_do_not_interfere_witness :
  User.id kat <> User.id (User.mk "2002" "bo" "https://cdn.example/bo.png") /\
  snd (runAll
         [ {| invEnv := trickEnv; invCommand := "trickortreat"; invUser := kat |};
           {| invEnv := trickEnvLater; invCommand := "trickortreat";
              invUser := User.mk "2002" "bo" "https://cdn.example/bo.png" |} ]
         {[ "1001" := katProfile 3 [] ]})
  = snd (overlapped trickEnv trickEnvLater kat
           (User.mk "2002" "bo" "https://cdn.example/bo.png")
           {[ "1001" := katProfile 3 [] ]}).
Proof.
  assert (H1 : User.id kat
               <> User.id (User.mk "2002" "bo" "https://cdn.example/bo.png"))
    by discriminate.
  split; [exact H1|].
  rewrite (different_users_do_not_interfere trickEnv trickEnvLater kat
             (User.mk "2002" "bo" "https://cdn.example/bo.png")
             {[ "1001" := katProfile 3 [] ]} H1).
  reflexivity.
Defined.

(** ** Dispatch and document paths *)

(** X11: each of the four registered commands has a case in the
    dispatcher and is answered, by its handler's reply or by the
    failure notice; a command name that is not registered gets no
    reply and leaves the store as it was. *)
Theorem registered_commands_answered (env : Env) (user : User.t)
    (st : gmap string Profile.t) (commandName : string) :
  map fst commands = ["trickortreat"; "inventory"; "shop"; "topspook"] /\
  (In commandName (map fst commands) ->
     exists reply, fst (interactionCreate env commandName user st) = Some reply) /\
  (~ In commandName (map fst commands) ->
     interactionCreate env commandName user st = (None, st)).
Proof.
  split; [reflexivity|].
  unfold interactionCreate, handlerOf. cbn [map fst commands].
  destruct (String.eqb_spec commandName "trickortreat") as [->|H1].
  { split; [|simpl; tauto]. intros _.
    destruct (handleTrickOrTreat env user st) as [[?|?] st']; eauto. }
  destruct (String.eqb_spec commandName "inventory") as [->|H2].
  { split; [|simpl; tauto]. intros _.
    destruct (handleInventory env user st) as [[?|?] st']; eauto. }
  destruct (String.eqb_spec commandName "shop") as [->|H3].
  { split; [|simpl; tauto]. intros _.
    destruct (handleShop env user st) as [[?|?] st']; eauto. }
  destruct (String.eqb_spec commandName "topspook") as [->|H4].
  { split; [|simpl; tauto]. intros _.
    destruct (handleTopSpook env st) as [[?|?] st']; eauto. }
  split; [|reflexivity].
  simpl. intros [H|[H|[H|[H|[]]]]]; congruence.
Qed.

Lemma registered_commands_answered_witness :
  ~ In "buy" (map fst commands) /\
  interactionCreate trickEnv "buy" kat {[ "1001" := katProfile 500 [] ]}
    = (None, {[ "1001" := katProfile 500 [] ]}).
Proof.
  assert (H : ~ In "buy" (map fst commands)).
  { simpl. intros [H|[H|[H|[H|[]]]]]; discriminate H. }
  split; [exact H|].
  destruct (registered_commands_answered trickEnv kat
              {[ "1001" := katProfile 500 [] ]} "buy") as (_ & _ & Hno).
  exact (Hno H).
Defined.

Lemma string_length_app (a b : string) :
  String.length (a +:+ b) = (String.length a + String.length b)%nat.
Proof.
  induction a as [|c a IH]; [reflexivity|].
  change (S (String.length (a +:+ b)) = S (String.length a + String.length b)).
  rewrite IH. reflexivity.
Qed.

(** Appending the same text to two strings keeps them apart. *)
Lemma string_app_inj_r (a b s : string) : a +:+ s = b +:+ s -> a = b.
Proof.
  revert b. induction a as [|c a IH]; intros [|d b] H.
  - reflexivity.
  - apply (f_equal String.length) in H.
    rewrite !string_length_app in H. simpl in H. lia.
  - apply (f_equal String.length) in H.
    rewrite !string_length_app in H. simpl in H. lia.
  - change (String c (a +:+ s) = String d (b +:+ s)) in H.
    injection H as -> H. f_equal. apply IH. exact H.
Qed.

(** X12: the profile documents of two different users have different
    paths, whatever the application id; without [__app_id] in the
    environment (or with an empty one) the application id is
    [halloween-bot]. *)
Theorem profilePath_per_user (app_id : option string) (userId1 userId2 : string) :
  userId1 <> userId2 ->
  profilePath (appIdOf app_id) userId1 <> profilePath (appIdOf app_id) userId2 /\
  profilePath (appIdOf None) userId1
    = "/artifacts/halloween-bot/users/" +:+ userId1 +:+ "/candy_data/profile" /\
  appIdOf (Some "") = "halloween-bot".
Proof.
  intros Hne. split; [|split; reflexivity].
  unfold profilePath. intros H.
  apply (String.app_inj "/artifacts/") in H.
  apply (String.app_inj (appIdOf app_id)) in H.
  apply (String.app_inj "/users/") in H.
  apply string_app_inj_r in H. contradiction.
Qed.

Lemma profilePath_per_user_witness :
  "1001" <> "2002" /\
  profilePath (appIdOf None) "1001" <> profilePath (appIdOf None) "2002".
Proof.
  assert (H : "1001" <> "2002") by discriminate.
  split; [exact H|].
  exact (proj1 (profilePath_per_user None "1001" "2002" H)).
Defined.

(** ** What reaches the reply and the store *)









(** ** Shop statuses and balance *)

(** The three labels of line 314, by case. *)
Lemma statusText_label (profile : Profile.t) (item : ShopItem.t) :
  statusText profile item =
  statusLabel (if owns profile item then Owned
               else if ShopItem.cost item <=? Profile.candy profile then Buyable
               else TooExpensive).
Proof.
  unfold statusText. rewrite Z.geb_leb.
  destruct (owns profile item); [reflexivity|].
  destruct (ShopItem.cost item <=? Profile.candy profile); reflexivity.
Qed.

Lemma statusLabel_inj (a b : Affordability) :
  statusLabel a = statusLabel b -> a = b.
Proof. destruct a, b; simpl; intros H; try reflexivity; discriminate H. Qed.

(** X16: for a fixed inventory, a higher balance never takes an item
    out of reach: an item shown as buyable stays buyable, an item shown
    as too expensive was too expensive at every lower balance, and
    owned items are shown as owned at any balance.  In the catalog,
    nothing is too expensive from 300 candy on and nothing is buyable
    below 50. *)
Theorem shop_status_monotone (profile richer : Profile.t) (item : ShopItem.t) :
  Profile.inventory richer = Profile.inventory profile ->
  Profile.candy profile <= Profile.candy richer ->
  (statusText profile item = statusLabel Buyable ->
   statusText richer item = statusLabel Buyable) /\
  (statusText richer item = statusLabel TooExpensive ->
   statusText profile item = statusLabel TooExpensive) /\
  (statusText profile item = statusLabel Owned <->
   statusText richer item = statusLabel Owned) /\
  (In item SHOP_ITEMS -> 300 <= Profile.candy profile ->
   statusText profile item <> statusLabel TooExpensive) /\
  (In item SHOP_ITEMS -> Profile.candy profile < 50 ->
   statusText profile item <> statusLabel Buyable).
Proof.
  intros Hinv Hle.
  assert (Ho : owns richer item = owns profile item).
  { unfold owns. rewrite Hinv. reflexivity. }
  rewrite !statusText_label, Ho.
  assert (Hcost : In item SHOP_ITEMS -> 50 <= ShopItem.cost item <= 300).
  { simpl. intros [<-|[<-|[<-|[]]]]; simpl; lia. }
  destruct (owns profile item);
    destruct (Z.leb_spec (ShopItem.cost item) (Profile.candy profile)) as [Hp|Hp];
    destruct (Z.leb_spec (ShopItem.cost item) (Profile.candy richer)) as [Hq|Hq];
    try lia;
    (split; [intros Hx; try reflexivity; try discriminate Hx|]);
    (split; [intros Hx; try reflexivity; try discriminate Hx|]);
    (split; [split; intros Hx; try reflexivity; try discriminate Hx|]);
    (split; intros Hin Hc Hx; apply statusLabel_inj in Hx;
       try discriminate Hx; specialize (Hcost Hin); lia).
Qed.

Lemma shop_status_monotone_witness :
  Profile.inventory (katProfile 200 []) = Profile.inventory (katProfile 100 []) /\
  Profile.candy (katProfile 100 []) <= Profile.candy (katProfile 200 []) /\
  statusText (katProfile 200 []) (ShopItem.mk "hat" "Witch's Hat" 50 "The Bewitched" "#8b008b")
    = statusLabel Buyable.
Proof.
  assert (H1 : Profile.inventory (katProfile 200 [])
               = Profile.inventory (katProfile 100 [])) by reflexivity.
  assert (H2 : Profile.candy (katProfile 100 []) <= Profile.candy (katProfile 200 []))
    by (simpl; lia).
  split; [exact H1|]. split; [exact H2|].
  destruct (shop_status_monotone (katProfile 100 []) (katProfile 200 [])
              (ShopItem.mk "hat" "Witch's Hat" 50 "The Bewitched" "#8b008b") H1 H2)
    as (H & _).
  apply H. reflexivity.
Defined.

(** ** Draws consumed *)

(** X17: drawing an outcome consumes exactly three draws in every
    branch (trick: branch, magnitude, message line; treat: branch,
    tier, magnitude), so the outcome depends on the first three draws
    only and a second outcome drawn from what is left starts at the
    fourth draw. *)
Theorem outcome_consumes_three_draws (currentCandy : Z) (r r' : Random.Rng) :
  (forall n, snd (computeOutcome currentCandy r) n = r (3 + n)%nat) /\
  (r 0%nat = r' 0%nat -> r 1%nat = r' 1%nat -> r 2%nat = r' 2%nat ->
   fst (computeOutcome currentCandy r) = fst (computeOutcome currentCandy r')).
Proof.
  split.
  - intros n.
    unfold computeOutcome, Random.bind, Random.random, Random.ret. cbv zeta.
    destruct (Float64.ltb (r 0%nat) Float64.lit_0_10); [reflexivity|].
    destruct (Float64.ltb (r 1%nat) Float64.lit_0_75); [reflexivity|].
    destruct (Float64.ltb (r 1%nat) Float64.lit_0_95); reflexivity.
  - intros H0 H1 H2.
    destruct (Z.lt_ge_cases (r 0%nat) Float64.lit_0_10) as [Ht|Ht].
    { rewrite (computeOutcome_trick currentCandy r) by assumption.
      rewrite (computeOutcome_trick currentCandy r') by lia.
      rewrite H1, H2. reflexivity. }
    destruct (Z.lt_ge_cases (r 1%nat) Float64.lit_0_75) as [Hc|Hc].
    { rewrite (computeOutcome_common currentCandy r) by assumption.
      rewrite (computeOutcome_common currentCandy r') by lia.
      rewrite H2. reflexivity. }
    destruct (Z.lt_ge_cases (r 1%nat) Float64.lit_0_95) as [Hj|Hj].
    { rewrite (computeOutcome_rare currentCandy r) by (try split; assumption).
      rewrite (computeOutcome_rare currentCandy r') by lia.
      rewrite H2. reflexivity. }
    rewrite (computeOutcome_jackpot currentCandy r) by assumption.
    rewrite (computeOutcome_jackpot currentCandy r') by lia.
    rewrite H2. reflexivity.
Qed.
